(** * AER daily report downloader: report-date resolution and pipeline

    A shallow embedding of [src/lambda/aer_downloader.py] together with the
    parts of Python's [datetime], [_strptime] and [zoneinfo] modules the
    program calls, followed by the properties of the report-date resolver,
    the source locator and the handler.

    Conventions.
    - A Python [int] is a [Z]; [//] and [%] with a positive divisor are
      [Z.div] and [Z.modulo] (both round toward minus infinity).
    - A Python [str] is a [string] holding its UTF-8 bytes; [bytes] is a
      [list Byte.byte].
    - A call that may raise returns a [result]: [Ok v] for a normal return,
      [Err e] for a raised exception [e]. *)

From Stdlib Require Import ZArith List String Ascii Bool Lia DecimalString.
From Stdlib.Strings Require Import Byte.
Import ListNotations.
Open Scope string_scope.
Open Scope list_scope.
Open Scope Z_scope.

(** ** Outcomes of Python calls *)

Inductive exception : Type :=
| ValueError (msg : string)
| OverflowError (msg : string)
| KeyError (key : string)
| TypeError (msg : string)
| RuntimeError (msg : string)
| ClientError (code : string)      (* botocore.exceptions.ClientError *)
| URLError (reason : string)       (* transport failure inside urlopen *)
| ServiceError (msg : string)      (* any other exception of a collaborator *)
| LoopBound.                       (* not a Python exception: the bound of a
                                      modelled [while] loop was reached *)

Inductive result (A : Type) : Type :=
| Ok (value : A)
| Err (e : exception).

Arguments Ok {A} value.
Arguments Err {A} e.

Definition bind {A B : Type} (r : result A) (k : A -> result B) : result B :=
  match r with
  | Ok v => k v
  | Err e => Err e
  end.

Declare Scope py_scope.
Delimit Scope py_scope with py.
Notation "x <- r ;; k" := (bind r (fun x => k))
  (at level 61, r at next level, right associativity) : py_scope.
Open Scope py_scope.

(** ** [datetime.date] (Lib/datetime.py) *)

Module PyDate.

Definition MINYEAR : Z := 1.
Definition MAXYEAR : Z := 9999.
Definition _MAXORDINAL : Z := 3652059.

(** Index 0 holds the placeholder -1, as in the library.  Python raises
    [IndexError] past the end of the table; every caller checks that the
    month is in 1..12 first. *)
Definition _DAYS_IN_MONTH : list Z :=
  [-1; 31; 28; 31; 30; 31; 30; 31; 31; 30; 31; 30; 31].

Definition _DAYS_BEFORE_MONTH : list Z :=
  [-1; 0; 31; 59; 90; 120; 151; 181; 212; 243; 273; 304; 334].

Definition table_get (table : list Z) (i : Z) : Z :=
  nth (Z.to_nat i) table (-1).

Definition _is_leap (year : Z) : bool :=
  (year mod 4 =? 0) && (negb (year mod 100 =? 0) || (year mod 400 =? 0)).

Definition _days_before_year (year : Z) : Z :=
  let y := year - 1 in
  y * 365 + y / 4 - y / 100 + y / 400.

Definition _days_in_month (year month : Z) : Z :=
  if (month =? 2) && _is_leap year then 29
  else table_get _DAYS_IN_MONTH month.

Definition _days_before_month (year month : Z) : Z :=
  table_get _DAYS_BEFORE_MONTH month
  + Z.b2z ((2 <? month) && _is_leap year).

Definition _ymd2ord (year month day : Z) : Z :=
  _days_before_year year + _days_before_month year month + day.

Definition _DI400Y : Z := Eval cbv in _days_before_year 401.
Definition _DI100Y : Z := Eval cbv in _days_before_year 101.
Definition _DI4Y : Z := Eval cbv in _days_before_year 5.

Definition _ord2ymd (n : Z) : Z * Z * Z :=
  let n := n - 1 in
  let n400 := n / _DI400Y in
  let n := n mod _DI400Y in
  let year := n400 * 400 + 1 in
  let n100 := n / _DI100Y in
  let n := n mod _DI100Y in
  let n4 := n / _DI4Y in
  let n := n mod _DI4Y in
  let n1 := n / 365 in
  let n := n mod 365 in
  let year := year + (n100 * 100 + n4 * 4 + n1) in
  if (n1 =? 4) || (n100 =? 4) then (year - 1, 12, 31)
  else
    let leapyear := (n1 =? 3) && (negb (n4 =? 24) || (n100 =? 3)) in
    let month := Z.shiftr (n + 50) 5 in
    let preceding :=
      table_get _DAYS_BEFORE_MONTH month + Z.b2z ((2 <? month) && leapyear) in
    if n <? preceding then
      let month := month - 1 in
      let preceding :=
        preceding
        - (table_get _DAYS_IN_MONTH month + Z.b2z ((month =? 2) && leapyear)) in
      (year, month, n - preceding + 1)
    else (year, month, n - preceding + 1).

(** A [date] object: the three fields the class stores. *)
Record date : Type := mkdate {
  date_year : Z;
  date_month : Z;
  date_day : Z
}.

(** [_check_date_fields]: the test the constructor applies.  Every [date]
    a Python program holds passes it. *)
Definition _check_date_fields (year month day : Z) : result date :=
  if negb ((MINYEAR <=? year) && (year <=? MAXYEAR)) then
    Err (ValueError "year must be in 1..9999")
  else if negb ((1 <=? month) && (month <=? 12)) then
    Err (ValueError "month must be in 1..12")
  else if negb ((1 <=? day) && (day <=? _days_in_month year month)) then
    Err (ValueError "day is out of range for month")
  else Ok (mkdate year month day).

Definition valid_date (d : date) : Prop :=
  _check_date_fields (date_year d) (date_month d) (date_day d) = Ok d.

Definition toordinal (d : date) : Z :=
  _ymd2ord (date_year d) (date_month d) (date_day d).

Definition fromordinal (n : Z) : date :=
  let '(y, m, d) := _ord2ymd n in mkdate y m d.

(** [date.weekday]: Monday is 0, Sunday is 6. *)
Definition weekday (d : date) : Z := (toordinal d + 6) mod 7.

(** [date.__add__] with [timedelta(days=days)]. *)
Definition add_days (d : date) (days : Z) : result date :=
  let o := toordinal d + days in
  if (0 <? o) && (o <=? _MAXORDINAL) then Ok (fromordinal o)
  else Err (OverflowError "result out of range").

(** [date.__sub__] with [timedelta(days=days)]: [self + timedelta(-days)]. *)
Definition sub_days (d : date) (days : Z) : result date :=
  add_days d (- days).

End PyDate.

(** ** Text helpers *)

(** An f-string: the concatenation of its literal and formatted parts. *)
Definition fstring (parts : list string) : string := String.concat "" parts.

Definition newline : string := String (ascii_of_nat 10) "".

(** The decimal digit [n] (0..9) as a character. *)
Definition digit_char (n : Z) : ascii := ascii_of_nat (48 + Z.to_nat n).

(** ["%02d" % n] and ["%04d" % n] for [0 <= n] below 100 and 10000. *)
Definition zero_pad2 (n : Z) : string :=
  String (digit_char (n / 10 mod 10)) (String (digit_char (n mod 10)) "").

Definition zero_pad4 (n : Z) : string :=
  String (digit_char (n / 1000 mod 10))
    (String (digit_char (n / 100 mod 10)) (zero_pad2 n)).

(** [str(n)] for an [int]. *)
Definition str_of_int (n : Z) : string := NilZero.string_of_int (Z.to_int n).

Definition is_digit (c : ascii) : bool :=
  (48 <=? nat_of_ascii c)%nat && (nat_of_ascii c <=? 57)%nat.

Definition digit_value (c : ascii) : Z := Z.of_nat (nat_of_ascii c) - 48.

(** [str.lower] on ASCII text: the letters A to Z are lower-cased and
    every other byte is left as it is.  The library also lower-cases the
    cased characters outside ASCII; on a text with such characters the
    model and the library differ. *)
Definition lower_char (c : ascii) : ascii :=
  let n := nat_of_ascii c in
  if (65 <=? n)%nat && (n <=? 90)%nat then ascii_of_nat (n + 32) else c.

Fixpoint lower (s : string) : string :=
  match s with
  | EmptyString => EmptyString
  | String c rest => String (lower_char c) (lower rest)
  end.

(** [text[:n]]: the first [n] characters of a [str].  A byte of the form
    10xxxxxx continues the character begun before it. *)
Definition is_continuation (c : ascii) : bool :=
  (128 <=? nat_of_ascii c)%nat && (nat_of_ascii c <? 192)%nat.

Fixpoint str_prefix (n : nat) (s : string) : string :=
  match s with
  | EmptyString => EmptyString
  | String c rest =>
      if is_continuation c then String c (str_prefix n rest)
      else match n with
           | O => EmptyString
           | S n' => String c (str_prefix n' rest)
           end
  end.

(** A [dict] with [str] keys and values, in insertion order. *)
Definition dict : Type := list (string * string).

Fixpoint dict_get (d : dict) (key : string) : option string :=
  match d with
  | [] => None
  | (k, v) :: rest => if String.eqb k key then Some v else dict_get rest key
  end.

(** [d[key]]. *)
Definition dict_getitem (d : dict) (key : string) : result string :=
  match dict_get d key with
  | Some v => Ok v
  | None => Err (KeyError key)
  end.

(** ** [date.strftime] and [datetime.strptime] *)

Module PyTime.
Import PyDate.

(** The directives the program uses: [%Y] (the year as four digits; for
    years below 1000 older CPython versions leave the padding to the C
    library), [%m], [%d] and [%%]. *)
Definition directive (d : date) (c : ascii) : string :=
  if Ascii.eqb c "Y" then zero_pad4 (date_year d)
  else if Ascii.eqb c "m" then zero_pad2 (date_month d)
  else if Ascii.eqb c "d" then zero_pad2 (date_day d)
  else if Ascii.eqb c "%" then "%"
  else String "%" (String c "").

(** [d.strftime(fmt)], which is also what [f"{d:fmt}"] produces. *)
Fixpoint strftime (d : date) (fmt : string) : string :=
  match fmt with
  | EmptyString => EmptyString
  | String c rest =>
      if Ascii.eqb c "%" then
        match rest with
        | EmptyString => String c EmptyString
        | String c' rest' => directive d c' ++ strftime d rest'
        end
      else String c (strftime d rest)
  end%string.

(** The regular expressions [_strptime.TimeRE] builds, and a backtracking
    matcher for them.  [\d] is matched against the ASCII digits.  The
    library's [\d] and [int] also take the decimal digits of other
    scripts; the model and the library agree on ASCII text
    ([ascii_only]), and the statements that depend on what the parser
    rejects are made for such text. *)
Inductive regex : Type :=
| Chr (c : ascii)                         (* a literal character *)
| Range (lo hi : ascii)                   (* [lo-hi] *)
| Digit                                   (* \d *)
| Seq (r1 r2 : regex)                     (* r1 r2 *)
| Alt (r1 r2 : regex)                     (* r1|r2 *)
| Group (name : string) (r : regex).      (* (?P<name>r) *)

Definition in_range (lo hi c : ascii) : bool :=
  (nat_of_ascii lo <=? nat_of_ascii c)%nat
  && (nat_of_ascii c <=? nat_of_ascii hi)%nat.

(** The text of [s] consumed when [rest] is what remains of it. *)
Definition consumed (s rest : string) : string :=
  substring 0 (String.length s - String.length rest) s.

(** [rmatch r s groups k]: match [r] at the start of [s] and hand what
    remains, with the groups captured so far, to the continuation [k]; when
    [k] fails the next alternative is tried, as the [re] engine does. *)
Fixpoint rmatch {R : Type} (r : regex) (s : string) (groups : dict)
  (k : string -> dict -> option R) : option R :=
  match r with
  | Chr c =>
      match s with
      | String c' rest => if Ascii.eqb c c' then k rest groups else None
      | EmptyString => None
      end
  | Range lo hi =>
      match s with
      | String c' rest => if in_range lo hi c' then k rest groups else None
      | EmptyString => None
      end
  | Digit =>
      match s with
      | String c' rest => if is_digit c' then k rest groups else None
      | EmptyString => None
      end
  | Seq r1 r2 => rmatch r1 s groups (fun rest g => rmatch r2 rest g k)
  | Alt r1 r2 =>
      match rmatch r1 s groups k with
      | Some x => Some x
      | None => rmatch r2 s groups k
      end
  | Group name r' =>
      rmatch r' s groups (fun rest g => k rest ((name, consumed s rest) :: g))
  end.

(** [pattern.match(s)]: the unmatched rest of [s] and the group dict. *)
Definition re_match (r : regex) (s : string) : option (string * dict) :=
  rmatch r s [] (fun rest g => Some (rest, g)).

(** ['Y': r"(?P<Y>\d\d\d\d)"] *)
Definition re_Y : regex :=
  Group "Y" (Seq Digit (Seq Digit (Seq Digit Digit))).

(** ['m': r"(?P<m>1[0-2]|0[1-9]|[1-9])"] *)
Definition re_m : regex :=
  Group "m" (Alt (Seq (Chr "1") (Range "0" "2"))
            (Alt (Seq (Chr "0") (Range "1" "9"))
                 (Range "1" "9"))).

(** ['d': r"(?P<d>3[0-1]|[1-2]\d|0[1-9]|[1-9]| [1-9])"] *)
Definition re_d : regex :=
  Group "d" (Alt (Seq (Chr "3") (Range "0" "1"))
            (Alt (Seq (Range "1" "2") Digit)
            (Alt (Seq (Chr "0") (Range "1" "9"))
            (Alt (Range "1" "9")
                 (Seq (Chr " ") (Range "1" "9")))))).

(** [TimeRE.pattern("%Y-%m-%d")] *)
Definition format_regex : regex :=
  Seq re_Y (Seq (Chr "-") (Seq re_m (Seq (Chr "-") re_d))).

(** [int(s)] on what the groups above capture: decimal digits, after
    blanks that [int] strips. *)
Fixpoint int_digits (acc : Z) (s : string) : result Z :=
  match s with
  | EmptyString => Ok acc
  | String c rest =>
      if is_digit c then int_digits (acc * 10 + digit_value c) rest
      else Err (ValueError "invalid literal for int() with base 10")
  end.

Fixpoint lstrip (s : string) : string :=
  match s with
  | String c rest => if Ascii.eqb c " " then lstrip rest else s
  | EmptyString => EmptyString
  end.

Definition int (s : string) : result Z :=
  match lstrip s with
  | EmptyString => Err (ValueError "invalid literal for int() with base 10")
  | digits => int_digits 0 digits
  end.

(** [datetime.strptime(data_string, "%Y-%m-%d").date()].  Every failure
    is a [ValueError]; the quoted input the library appends to its
    messages is left out. *)
Definition strptime_date (data_string : string) : result date :=
  match re_match format_regex data_string with
  | None => Err (ValueError "time data does not match format '%Y-%m-%d'")
  | Some (rest, found_dict) =>
      if negb (String.eqb rest "") then
        Err (ValueError "unconverted data remains")
      else
        Y <- dict_getitem found_dict "Y" ;;
        year <- int Y ;;
        m <- dict_getitem found_dict "m" ;;
        month <- int m ;;
        d <- dict_getitem found_dict "d" ;;
        day <- int d ;;
        _check_date_fields year month day
  end.

(** A [datetime] object; the attached [tzinfo] is left implicit. *)
Record datetime : Type := mkdatetime {
  dt_date : date;
  hour : Z;
  minute : Z;
  second : Z;
  microsecond : Z
}.

(** [datetime.__add__] with [timedelta(seconds=seconds)]. *)
Definition add_seconds (dt : datetime) (seconds : Z) : result datetime :=
  let total := hour dt * 3600 + minute dt * 60 + second dt + seconds in
  let days := toordinal (dt_date dt) + total / 86400 in
  let secs := total mod 86400 in
  let hour := secs / 3600 in
  let rem := secs mod 3600 in
  if (0 <? days) && (days <=? _MAXORDINAL) then
    Ok (mkdatetime (fromordinal days) hour (rem / 60) (rem mod 60)
          (microsecond dt))
  else Err (OverflowError "result out of range").

(** A [zoneinfo.ZoneInfo]: the offset from UTC, in seconds, that the time
    zone database gives for a UTC time. *)
Record ZoneInfo : Type := mkZoneInfo {
  utcoff : datetime -> Z
}.

(** [ZoneInfo.fromutc]: [dt += tti.utcoff]. *)
Definition fromutc (tz : ZoneInfo) (dt : datetime) : result datetime :=
  add_seconds dt (utcoff tz dt).

(** [self.astimezone(tz)] for [self] in UTC: the offset of [self] is zero,
    [utc = (self - myoffset).replace(tzinfo=tz)], then [tz.fromutc(utc)]. *)
Definition astimezone (self : datetime) (tz : ZoneInfo) : result datetime :=
  utc <- add_seconds self (- 0) ;;
  fromutc tz utc.

End PyTime.

(** ** The program: business-day stepper *)

(** [while day.weekday() > 4: day -= timedelta(days=1)].  The loop is
    unrolled at most [fuel] times; [previous_business_day] starts it with
    the weekday number of its argument, which bounds the number of
    iterations (theorem [previous_business_day_loop_bound]). *)
Fixpoint previous_business_day_loop (fuel : nat) (day : PyDate.date)
  : result PyDate.date :=
  if 4 <? PyDate.weekday day then
    match fuel with
    | O => Err LoopBound
    | S fuel' =>
        day' <- PyDate.sub_days day 1 ;;
        previous_business_day_loop fuel' day'
    end
  else Ok day.

Definition previous_business_day (day : PyDate.date) : result PyDate.date :=
  previous_business_day_loop (Z.to_nat (PyDate.weekday day)) day.

(** ** The program: report-date resolver and source locator *)

(** A call to an external collaborator, with the arguments the program
    passes. *)
Definition bytes : Type := list byte.

Inductive call : Type :=
| HttpGet (url : string)
| S3HeadObject (Bucket Key : string)
| S3PutObject (Bucket Key : string) (Body : bytes) (ContentType : string)
    (Metadata : dict)
| BedrockInvokeModel (modelId contentType accept body : string)
| SnsPublish (TopicArn Subject Message : string)
| S3DeleteObject (Bucket Key : string).

(** What the process reads from outside and what it has done there: the
    [REPORT_DATE] environment variable, the clock behind
    [datetime.utcnow()], and the calls made so far, oldest first. *)
Record process : Type := mkprocess {
  getenv_REPORT_DATE : option string;
  utcnow : PyTime.datetime;
  calls : list call
}.

Section Resolver.

(** [ALBERTA_TZ = ZoneInfo("America/Edmonton")]: the time zone database
    is not part of the program. *)
Variable ALBERTA_TZ : PyTime.ZoneInfo.

Definition resolve_report_date (w : process) (dataset : string)
  (now_utc : option PyTime.datetime) : result PyDate.date :=
  let override := getenv_REPORT_DATE w in
  match override with
  | Some (String c s) => PyTime.strptime_date (String c s)
  | _ =>
      let now_utc :=
        match now_utc with
        | None => utcnow w
        | Some now => now
        end in
      now_ab <- PyTime.astimezone now_utc ALBERTA_TZ ;;
      let day := PyTime.dt_date now_ab in
      if String.eqb dataset "ST1" then
        if PyTime.hour now_ab <? 10 then
          yesterday <- PyDate.sub_days day 1 ;;
          previous_business_day yesterday
        else previous_business_day day
      else if String.eqb dataset "ST100" then
        if 4 <? PyDate.weekday (PyTime.dt_date now_ab) then
          previous_business_day day
        else if PyTime.hour now_ab <? 21 then
          yesterday <- PyDate.sub_days day 1 ;;
          previous_business_day yesterday
        else previous_business_day day
      else Err (ValueError (fstring ["Unknown dataset "; dataset]))
  end.

End Resolver.

Definition build_url (dataset : string) (day : PyDate.date) : result string :=
  let mmdd := PyTime.strftime day "%m%d" in
  if String.eqb dataset "ST1" then
    Ok (fstring ["https://static.aer.ca/data/well-lic/WELLS"; mmdd; ".txt"])
  else if String.eqb dataset "ST100" then
    Ok (fstring ["https://static.aer.ca/prd/data/pipeconst/PIPE"; mmdd; ".txt"])
  else Err (ValueError (fstring ["Unknown dataset "; dataset])).

Definition s3_key (day : PyDate.date) (dataset : string) (ext : string)
  : string :=
  fstring [PyTime.strftime day "%Y/%m/%d"; "/"; lower dataset; "_";
           PyTime.strftime day "%Y%m%d"; "."; ext].


(** ** The program: fetch, store, summarise, notify, delete *)

(** A reply of [urllib.request.urlopen]: a response with its status and
    body, an [HTTPError] with its code, or another exception. *)
Inductive urlopen_reply : Type :=
| Response (status : option Z) (data : bytes)
| HTTPError (code : Z)
| Raises (e : exception).

(** The collaborators.  Each reply may depend on the calls made before.
    [s3_head_object] replies with the [Metadata] of the stored object;
    [bedrock_invoke_model] with the text at [content][0][text] of the
    decoded response body, or with the exception raised by the service,
    by [json.loads] or by one of the lookups. *)
Record collaborators : Type := mkcollaborators {
  urlopen : list call -> string -> urlopen_reply;
  s3_head_object : list call -> call -> result dict;
  s3_put_object : list call -> call -> result unit;
  bedrock_invoke_model : list call -> call -> result string;
  sns_publish : list call -> call -> result unit;
  s3_delete_object : list call -> call -> result unit
}.

(** A JSON value handed to [json.dumps]. *)
#[local] Unset Elimination Schemes.
Inductive json : Type :=
| JString (s : string)
| JInt (n : Z)
| JFloat (literal : string)
| JArray (items : list json)
| JObject (members : list (string * json)).
#[local] Set Elimination Schemes.

(** One entry of [items] in [handler]. *)
Record item : Type := mkitem {
  item_dataset : string;
  item_preview : string;
  item_key : string;
  item_url : string
}.

(** Computations that call collaborators: a state and error monad over
    the process.  A raised exception keeps the calls already made. *)
Definition M (A : Type) : Type := process -> result A * process.

Definition ret {A : Type} (v : A) : M A := fun w => (Ok v, w).

Definition raise {A : Type} (e : exception) : M A := fun w => (Err e, w).

Definition lift {A : Type} (r : result A) : M A := fun w => (r, w).

Definition mbind {A B : Type} (m : M A) (k : A -> M B) : M B :=
  fun w =>
    match m w with
    | (Ok v, w') => k v w'
    | (Err e, w') => (Err e, w')
    end.

Notation "x <~ m ;; k" := (mbind m (fun x => k))
  (at level 61, m at next level, right associativity) : py_scope.

(** [try: m except: handler]. *)
Definition try_except {A : Type} (m : M A) (handler : exception -> M A)
  : M A :=
  fun w =>
    match m w with
    | (Ok v, w') => (Ok v, w')
    | (Err e, w') => handler e w'
    end.

(** Make the call [c] and take the reply the collaborator gives after
    the calls made so far. *)
Definition invoke {A : Type} (oracle : list call -> call -> result A)
  (c : call) : M A :=
  fun w =>
    (oracle (calls w) c,
     mkprocess (getenv_REPORT_DATE w) (utcnow w) (calls w ++ [c])).

(** [status == n] and [status is None or status >= n] for the status
    [http_get] returns. *)
Definition status_eq (status : option Z) (n : Z) : bool :=
  match status with
  | Some s => s =? n
  | None => false
  end.

Definition status_none_or_ge (status : option Z) (n : Z) : bool :=
  match status with
  | Some s => n <=? s
  | None => true
  end.

Definition str_of_status (status : option Z) : string :=
  match status with
  | Some s => str_of_int s
  | None => "None"
  end.

Definition string_in (s : string) (l : list string) : bool :=
  existsb (String.eqb s) l.

Section Pipeline.

Variable ALBERTA_TZ : PyTime.ZoneInfo.

(** [os.environ["RAW_BUCKET"]] and the like, read when the module loads. *)
Variables RAW_BUCKET SNS_TOPIC_ARN MODEL_ID : string.

(** [hashlib.sha256(b).hexdigest()], [b.decode("utf-8", errors="replace")]
    and [json.dumps]: library functions taken as given. *)
Variable sha256_hexdigest : bytes -> string.
Variable utf8_decode_replace : bytes -> string.
Variable json_dumps : json -> string.

Variable services : collaborators.

Definition http_get (url : string) : M (option Z * option bytes) :=
  fun w =>
    let w' := mkprocess (getenv_REPORT_DATE w) (utcnow w)
                (calls w ++ [HttpGet url]) in
    match urlopen services (calls w) url with
    | Response status data => (Ok (status, Some data), w')
    | HTTPError code => (Ok (Some code, None), w')
    | Raises e => (Err e, w')
    end.

Definition text_block (day : PyDate.date) (it : item) : string :=
  let text := item_preview it in
  let trimmed := str_prefix (Z.to_nat 8000) text in
  fstring ["Dataset "; item_dataset it; " ("; PyTime.strftime day "%Y-%m-%d";
           "):"; newline; trimmed].

Definition summarize_with_bedrock (day : PyDate.date) (items : list item)
  : M string :=
  let text_blocks := map (text_block day) items in
  let prompt :=
    fstring
      ["You are an oil & gas analyst."; newline;
       "Summarize today's AER releases (ST1 well licenses, ST100 pipeline construction notices).";
       newline;
       "Provide:"; newline;
       "- Key totals and notable entries"; newline;
       "- Any unusual spikes vs typical days"; newline;
       "- Operator or region callouts"; newline;
       "- Short, actionable insights"; newline; newline;
       "Text:"; newline; newline; String.concat newline text_blocks] in
  let body :=
    json_dumps
      (JObject
         [("anthropic_version", JString "bedrock-2023-05-31");
          ("max_tokens", JInt 700);
          ("temperature", JFloat "0.2");
          ("messages",
           JArray
             [JObject
                [("role", JString "user");
                 ("content",
                  JArray [JObject [("type", JString "text");
                                   ("text", JString prompt)]])]])]) in
  invoke (bedrock_invoke_model services)
    (BedrockInvokeModel MODEL_ID "application/json" "application/json" body).

Definition publish_sns (subject message : string) : M unit :=
  invoke (sns_publish services) (SnsPublish SNS_TOPIC_ARN subject message).

(** [handler(event, _ctx)].  The [html] text the source builds is never
    used and is left out. *)
Definition handler (event : dict) : M dict :=
  dataset <~ lift (dict_getitem event "dataset") ;;
  day <~ (fun w => (resolve_report_date ALBERTA_TZ w dataset None, w)) ;;
  url <~ lift (build_url dataset day) ;;
  reply <~ http_get url ;;
  let '(status, content) := reply in
  if status_eq status 404 then
    ret [("dataset", dataset); ("date", PyTime.strftime day "%Y-%m-%d");
         ("status", "not_ready"); ("url", url)]
  else if status_none_or_ge status 400 then
    raise (RuntimeError (fstring ["Failed to download "; url; ": status=";
                                  str_of_status status]))
  else
    match content with
    | None =>
        raise (TypeError "object supporting the buffer API required")
    | Some content =>
        let sha := sha256_hexdigest content in
        let key := s3_key day dataset "txt" in
        _ <~ try_except
               (head <~ invoke (s3_head_object services)
                          (S3HeadObject RAW_BUCKET key) ;;
                match dict_get head "sha256" with
                | Some stored => if String.eqb stored sha then ret tt else ret tt
                | None => ret tt
                end)
               (fun e =>
                  match e with
                  | ClientError code =>
                      if negb (string_in code
                                 ["404"; "NoSuchKey"; "NotFound"; "403";
                                  "AccessDenied"])
                      then raise e
                      else ret tt
                  | _ => raise e
                  end) ;;
        _ <~ invoke (s3_put_object services)
               (S3PutObject RAW_BUCKET key content "text/plain"
                  [("source_url", url); ("sha256", sha);
                   ("dataset", dataset)]) ;;
        let text_preview := utf8_decode_replace content in
        let items := [mkitem dataset text_preview key url] in
        summary <~ summarize_with_bedrock day items ;;
        let text_message :=
          fstring ["Daily AER Summary – "; PyTime.strftime day "%Y-%m-%d";
                   newline; "Dataset: "; dataset; newline; newline; summary;
                   newline; newline; "Source (temporary S3 key): "; key] in
        _ <~ publish_sns
               (fstring ["AER "; dataset; " summary – ";
                         PyTime.strftime day "%Y-%m-%d"])
               text_message ;;
        _ <~ invoke (s3_delete_object services)
               (S3DeleteObject RAW_BUCKET key) ;;
        ret [("dataset", dataset); ("date", PyTime.strftime day "%Y-%m-%d");
             ("status", "emailed_and_deleted"); ("url", url)]
    end.

End Pipeline.

(** ** Definitions used to state and check the properties *)

(** The month and day [_ord2ymd] derives from the offset [n] of a day in
    its year. *)
Definition month_day (n : Z) (leapyear : bool) : Z * Z :=
  let month := Z.shiftr (n + 50) 5 in
  let preceding :=
    PyDate.table_get PyDate._DAYS_BEFORE_MONTH month
    + Z.b2z ((2 <? month) && leapyear) in
  if n <? preceding then
    let month := month - 1 in
    let preceding :=
      preceding
      - (PyDate.table_get PyDate._DAYS_IN_MONTH month
         + Z.b2z ((month =? 2) && leapyear)) in
    (month, n - preceding + 1)
  else (month, n - preceding + 1).

Definition month_day_ok (leapyear : bool) (n : Z) : bool :=
  let '(m, d) := month_day n leapyear in
  (1 <=? m) && (m <=? 12) && (1 <=? d)
  && (d <=? (if (m =? 2) && leapyear then 29
             else PyDate.table_get PyDate._DAYS_IN_MONTH m))
  && (PyDate.table_get PyDate._DAYS_BEFORE_MONTH m
      + Z.b2z ((2 <? m) && leapyear) + d =? n + 1).

(** [P] holds of 0, ..., k-1. *)
Fixpoint below (P : Z -> bool) (k : nat) : bool :=
  match k with
  | O => true
  | S k' => P (Z.of_nat k') && below P k'
  end.

(** The instant [resolve_report_date] works with: its argument, or the
    clock when the argument is [None]. *)
Definition instant_of (w : process) (now_utc : option PyTime.datetime)
  : PyTime.datetime :=
  match now_utc with
  | None => utcnow w
  | Some now => now
  end.

(** Monday to Friday. *)
Definition is_business_day (d : PyDate.date) : Prop :=
  0 <= PyDate.weekday d <= 4.

(** A regular expression without capture groups. *)
Fixpoint groupless (r : PyTime.regex) : bool :=
  match r with
  | PyTime.Group _ _ => false
  | PyTime.Seq r1 r2 | PyTime.Alt r1 r2 => groupless r1 && groupless r2
  | _ => true
  end.

(** No override is in force: [REPORT_DATE] is unset or empty. *)
Definition no_override (w : process) : Prop :=
  getenv_REPORT_DATE w = None \/ getenv_REPORT_DATE w = Some "".

(** [ValueError(f"Unknown dataset {dataset}")]. *)
Definition unknown_dataset (dataset : string) : exception :=
  ValueError (fstring ["Unknown dataset "; dataset]).

(** The process [w] after the further calls [made]. *)
Definition after (w : process) (made : list call) : process :=
  mkprocess (getenv_REPORT_DATE w) (utcnow w) (calls w ++ made).

(** The subjects of the notifications among the calls [cs]. *)
Fixpoint subjects_sent (cs : list call) : list string :=
  match cs with
  | [] => []
  | SnsPublish _ subject _ :: rest => subject :: subjects_sent rest
  | _ :: rest => subjects_sent rest
  end.

(** ** Definitions used to state the further properties *)

(** The number of days the stepper goes back from a day with weekday
    number [wd]. *)
Definition weekend_days (wd : Z) : Z := Z.max 0 (wd - 4).

(** The hour from which a dataset's report of the day is expected. *)
Definition cutoff_hour (dataset : string) : Z :=
  if String.eqb dataset "ST1" then 10 else 21.

(** The two tags the program knows. *)
Definition known_dataset (dataset : string) : Prop :=
  dataset = "ST1" \/ dataset = "ST100".

(** Whether the rules start from the day before the local date. *)
Definition starts_yesterday (dataset : string) (now_ab : PyTime.datetime)
  : bool :=
  if String.eqb dataset "ST1" then PyTime.hour now_ab <? 10
  else (PyDate.weekday (PyTime.dt_date now_ab) <=? 4)
       && (PyTime.hour now_ab <? 21).

(** [l1] is an initial segment of [l2]. *)
Definition prefix_of {A : Type} (l1 l2 : list A) : Prop :=
  exists rest, l2 = l1 ++ rest.

(** The stages of the pipeline, by the collaborator call they make. *)
Inductive stage : Type :=
| Fetch | CheckStored | Store | Summarise | Notify | Delete.

Definition stage_of (c : call) : stage :=
  match c with
  | HttpGet _ => Fetch
  | S3HeadObject _ _ => CheckStored
  | S3PutObject _ _ _ _ _ => Store
  | BedrockInvokeModel _ _ _ _ => Summarise
  | SnsPublish _ _ _ => Notify
  | S3DeleteObject _ _ => Delete
  end.

Definition pipeline_stages : list stage :=
  [Fetch; CheckStored; Store; Summarise; Notify; Delete].

(** The exception with which the call [c], made after [history], ends the
    invocation: what the collaborator raises, except that the handler
    passes over the listed [ClientError] codes of the stored-copy check
    and turns an [HTTPError] of the fetch into a status. *)
Definition failure (services : collaborators) (history : list call)
  (c : call) : option exception :=
  match c with
  | HttpGet url =>
      match urlopen services history url with
      | Raises e => Some e
      | _ => None
      end
  | S3HeadObject _ _ =>
      match s3_head_object services history c with
      | Ok _ => None
      | Err (ClientError code) =>
          if string_in code
               ["404"; "NoSuchKey"; "NotFound"; "403"; "AccessDenied"]
          then None
          else Some (ClientError code)
      | Err e => Some e
      end
  | S3PutObject _ _ _ _ _ =>
      match s3_put_object services history c with
      | Ok _ => None
      | Err e => Some e
      end
  | BedrockInvokeModel _ _ _ _ =>
      match bedrock_invoke_model services history c with
      | Ok _ => None
      | Err e => Some e
      end
  | SnsPublish _ _ _ =>
      match sns_publish services history c with
      | Ok _ => None
      | Err e => Some e
      end
  | S3DeleteObject _ _ =>
      match s3_delete_object services history c with
      | Ok _ => None
      | Err e => Some e
      end
  end.

(** The ways to write [l] as [pre ++ c :: post]. *)
Fixpoint splits {A : Type} (l : list A) : list (list A * A * list A) :=
  match l with
  | [] => []
  | x :: t =>
      ([], x, t) :: map (fun '(pre, c, post) => (x :: pre, c, post)) (splits t)
  end.

(** The collaborators [services] with the stored-copy check answered by
    [head]. *)
Definition with_head_object (services : collaborators)
  (head : list call -> call -> result dict) : collaborators :=
  mkcollaborators (urlopen services) head (s3_put_object services)
    (bedrock_invoke_model services) (sns_publish services)
    (s3_delete_object services).

(** A reply of the stored-copy check that lets the handler go on. *)
Definition passes_check (reply : result dict) : bool :=
  match reply with
  | Ok _ => true
  | Err (ClientError code) =>
      string_in code ["404"; "NoSuchKey"; "NotFound"; "403"; "AccessDenied"]
  | Err _ => false
  end.

(** The number of characters of a [str]: its bytes that do not continue
    a character. *)
Fixpoint char_count (s : string) : nat :=
  match s with
  | EmptyString => O
  | String c rest =>
      if is_continuation c then char_count rest else S (char_count rest)
  end.

(** The texts [strptime] takes for a month and for a day of the month:
    two digits, or one digit below 10, which for a day may follow a
    blank. *)
Definition month_texts (m : Z) : list string :=
  if m <? 10 then [zero_pad2 m; String (digit_char m) ""]
  else [zero_pad2 m].

Definition day_texts (d : Z) : list string :=
  if d <? 10 then
    [zero_pad2 d; String (digit_char d) "";
     String " " (String (digit_char d) "")]
  else [zero_pad2 d].

(** The override texts that denote the date [d]. *)
Definition override_texts (d : PyDate.date) : list string :=
  flat_map
    (fun M =>
       map (fun D =>
              (zero_pad4 (PyDate.date_year d) ++ "-" ++ M ++ "-" ++ D)%string)
         (day_texts (PyDate.date_day d)))
    (month_texts (PyDate.date_month d)).

(** Every character of [s] is an ASCII character. *)
Fixpoint ascii_only (s : string) : bool :=
  match s with
  | EmptyString => true
  | String c rest => (nat_of_ascii c <? 128)%nat && ascii_only rest
  end.

(** The texts a regular expression matches, capture groups aside. *)
Inductive matches : PyTime.regex -> string -> Prop :=
| matches_chr (c : ascii) : matches (PyTime.Chr c) (String c "")
| matches_range (lo hi c : ascii) :
    PyTime.in_range lo hi c = true ->
    matches (PyTime.Range lo hi) (String c "")
| matches_digit (c : ascii) :
    is_digit c = true -> matches PyTime.Digit (String c "")
| matches_seq (r1 r2 : PyTime.regex) (p1 p2 : string) :
    matches r1 p1 -> matches r2 p2 ->
    matches (PyTime.Seq r1 r2) (p1 ++ p2)%string
| matches_alt_l (r1 r2 : PyTime.regex) (p : string) :
    matches r1 p -> matches (PyTime.Alt r1 r2) p
| matches_alt_r (r1 r2 : PyTime.regex) (p : string) :
    matches r2 p -> matches (PyTime.Alt r1 r2) p
| matches_group (name : string) (r : PyTime.regex) (p : string) :
    matches r p -> matches (PyTime.Group name r) p.

(** The bodies of the three groups of the format: what [re_Y], [re_m]
    and [re_d] capture. *)
Definition body_Y : PyTime.regex :=
  match PyTime.re_Y with
  | PyTime.Group _ r => r
  | r => r
  end.

Definition body_m : PyTime.regex :=
  match PyTime.re_m with
  | PyTime.Group _ r => r
  | r => r
  end.

Definition body_d : PyTime.regex :=
  match PyTime.re_d with
  | PyTime.Group _ r => r
  | r => r
  end.

(** ** Concrete data for the examples *)

Module Example.
Import PyDate PyTime.

(** Mountain Standard Time, seven hours behind UTC: the offset
    America/Edmonton applies in winter. *)
Definition mountain_standard_time : ZoneInfo :=
  mkZoneInfo (fun _ => -25200).

(** Wednesday 13 March 2024, 16:59 UTC, which is 09:59 in that zone. *)
Definition wednesday_morning : datetime :=
  mkdatetime (mkdate 2024 3 13) 16 59 0 0.

Definition wednesday_morning_local : datetime :=
  mkdatetime (mkdate 2024 3 13) 9 59 0 0.

(** Saturday 16 March 2024, 18:00 UTC, which is 11:00 in that zone. *)
Definition saturday_noon : datetime :=
  mkdatetime (mkdate 2024 3 16) 18 0 0 0.

Definition saturday_noon_local : datetime :=
  mkdatetime (mkdate 2024 3 16) 11 0 0 0.

(** A process that has made no call yet. *)
Definition fresh (override : option string) (clock : datetime) : process :=
  mkprocess override clock [].

(** Collaborators that answer the fetch with [reply], report no stored
    copy, accept every write, notification and delete, and summarise
    everything as "quiet day". *)
Definition services_replying (reply : urlopen_reply) : collaborators :=
  mkcollaborators
    (fun _ _ => reply)
    (fun _ _ => Err (ClientError "404"))
    (fun _ _ => Ok tt)
    (fun _ _ => Ok "quiet day")
    (fun _ _ => Ok tt)
    (fun _ _ => Ok tt).

(** Stand-ins for the library functions the pipeline takes as given. *)
Definition sha256_stub (b : bytes) : string := "00".
Definition decode_stub (b : bytes) : string := "".
Definition dumps_stub (j : json) : string := "{}".

Definition run (reply : urlopen_reply) (event : dict) (w : process)
  : result dict * process :=
  handler mountain_standard_time "raw-bucket" "topic" "model" sha256_stub
    decode_stub dumps_stub (services_replying reply) event w.

End Example.

(** * Properties *)

(** ** The calendar *)

Module PyDateFacts.
Import PyDate.

Lemma below_spec (P : Z -> bool) (k : nat) :
  below P k = true -> forall n, 0 <= n < Z.of_nat k -> P n = true.
Proof.
  induction k as [|k IH]; simpl; intros H n Hn; [lia|].
  apply andb_prop in H as [H1 H2].
  destruct (Z.eq_dec n (Z.of_nat k)) as [->|Hne]; [assumption|].
  apply IH; [assumption | lia].
Qed.

Lemma month_day_ok_all (leapyear : bool) (n : Z) :
  0 <= n < 365 + Z.b2z leapyear -> month_day_ok leapyear n = true.
Proof.
  intros H. destruct leapyear; simpl in H.
  - apply (below_spec (month_day_ok true) 366); [vm_compute; reflexivity | lia].
  - apply (below_spec (month_day_ok false) 365); [vm_compute; reflexivity | lia].
Qed.

(** The four divisions of [_ord2ymd], written as one decomposition. *)
Lemma ord2ymd_split (n : Z) :
  exists n400 n100 n4 n1 r,
    n - 1 = n400 * 146097 + n100 * 36524 + n4 * 1461 + n1 * 365 + r /\
    0 <= n100 <= 4 /\ 0 <= n4 <= 24 /\ 0 <= n1 <= 4 /\ 0 <= r < 365 /\
    n100 * 36524 + n4 * 1461 + n1 * 365 + r < 146097 /\
    n4 * 1461 + n1 * 365 + r < 36524 /\
    n1 * 365 + r < 1461 /\
    _ord2ymd n =
      let year := n400 * 400 + 1 + (n100 * 100 + n4 * 4 + n1) in
      if (n1 =? 4) || (n100 =? 4) then (year - 1, 12, 31)
      else
        let leapyear := (n1 =? 3) && (negb (n4 =? 24) || (n100 =? 3)) in
        let '(m, d) := month_day r leapyear in (year, m, d).
Proof.
  exists ((n - 1) / 146097), ((n - 1) mod 146097 / 36524),
    ((n - 1) mod 146097 mod 36524 / 1461),
    ((n - 1) mod 146097 mod 36524 mod 1461 / 365),
    ((n - 1) mod 146097 mod 36524 mod 1461 mod 365).
  repeat split; try (Z.div_mod_to_equations; lia).
  unfold _ord2ymd, month_day, _DI400Y, _DI100Y, _DI4Y.
  cbv zeta.
  destruct ((_ =? 4) || (_ =? 4)); [reflexivity|].
  match goal with |- context [?a <? ?b] => destruct (a <? b) end; reflexivity.
Qed.

Lemma is_leap_spec (y : Z) :
  _is_leap y = true <-> (y mod 4 = 0 /\ (y mod 100 <> 0 \/ y mod 400 = 0)).
Proof.
  unfold _is_leap.
  rewrite andb_true_iff, orb_true_iff, negb_true_iff, !Z.eqb_eq, Z.eqb_neq.
  reflexivity.
Qed.

Lemma is_leap_decomp (n400 n100 n4 n1 : Z) :
  0 <= n100 <= 3 -> 0 <= n4 <= 24 -> 0 <= n1 <= 3 ->
  _is_leap (n400 * 400 + 1 + (n100 * 100 + n4 * 4 + n1))
  = (n1 =? 3) && (negb (n4 =? 24) || (n100 =? 3)).
Proof.
  intros H100 H4 H1.
  apply eq_true_iff_eq.
  rewrite is_leap_spec.
  rewrite andb_true_iff, orb_true_iff, negb_true_iff, !Z.eqb_eq, Z.eqb_neq.
  Z.div_mod_to_equations. lia.
Qed.

Lemma days_before_year_decomp (n400 n100 n4 n1 : Z) :
  0 <= n100 <= 3 -> 0 <= n4 <= 24 -> 0 <= n1 <= 3 ->
  _days_before_year (n400 * 400 + 1 + (n100 * 100 + n4 * 4 + n1))
  = n400 * 146097 + n100 * 36524 + n4 * 1461 + n1 * 365.
Proof.
  intros. unfold _days_before_year. Z.div_mod_to_equations. lia.
Qed.

(** [_ord2ymd] is a right inverse of [_ymd2ord] and yields a month and a
    day of that month; between 1 and [_MAXORDINAL] the year is in range. *)
Lemma ymd2ord_ord2ymd (n : Z) :
  let '(y, m, d) := _ord2ymd n in
  _ymd2ord y m d = n /\ 1 <= m <= 12 /\ 1 <= d <= _days_in_month y m
  /\ (1 <= n <= _MAXORDINAL -> MINYEAR <= y <= MAXYEAR).
Proof.
  destruct (ord2ymd_split n)
    as (n400 & n100 & n4 & n1 & r & Hn & H100 & H4 & H1 & Hr & Hc & Hy & Hq
        & ->).
  unfold _MAXORDINAL, MINYEAR, MAXYEAR.
  cbv zeta.
  destruct ((n1 =? 4) || (n100 =? 4)) eqn:Hend.
  - apply orb_true_iff in Hend. rewrite !Z.eqb_eq in Hend.
    unfold _ymd2ord, _days_before_month, _days_in_month, _days_before_year.
    change (table_get _DAYS_BEFORE_MONTH 12) with 334.
    change (table_get _DAYS_IN_MONTH 12) with 31.
    change (12 =? 2) with false. change (2 <? 12) with true. cbn [andb].
    assert (Hl : _is_leap (n400 * 400 + 1 + (n100 * 100 + n4 * 4 + n1) - 1)
                 = true).
    { apply is_leap_spec. Z.div_mod_to_equations. lia. }
    rewrite Hl. cbn [Z.b2z].
    Z.div_mod_to_equations. lia.
  - apply orb_false_iff in Hend. rewrite !Z.eqb_neq in Hend.
    set (leapyear := (n1 =? 3) && (negb (n4 =? 24) || (n100 =? 3))).
    assert (Hleap : _is_leap (n400 * 400 + 1 + (n100 * 100 + n4 * 4 + n1))
                    = leapyear)
      by (apply is_leap_decomp; lia).
    assert (Hdby := days_before_year_decomp n400 n100 n4 n1
                      ltac:(lia) ltac:(lia) ltac:(lia)).
    assert (Hrl : 0 <= r < 365 + Z.b2z leapyear)
      by (destruct leapyear; simpl; lia).
    pose proof (month_day_ok_all leapyear r Hrl) as Hok.
    unfold month_day_ok in Hok.
    destruct (month_day r leapyear) as [m d].
    rewrite !andb_true_iff, !Z.leb_le, Z.eqb_eq in Hok.
    unfold _ymd2ord, _days_before_month, _days_in_month.
    rewrite Hleap, Hdby. lia.
Qed.

Lemma toordinal_fromordinal (n : Z) : toordinal (fromordinal n) = n.
Proof.
  pose proof (ymd2ord_ord2ymd n) as H.
  unfold toordinal, fromordinal.
  destruct (_ord2ymd n) as [[y m] d]. simpl. apply H.
Qed.

Lemma valid_date_iff (d : date) :
  valid_date d <->
  MINYEAR <= date_year d <= MAXYEAR /\ 1 <= date_month d <= 12
  /\ 1 <= date_day d <= _days_in_month (date_year d) (date_month d).
Proof.
  unfold valid_date, _check_date_fields.
  destruct d as [y m dd]; simpl.
  destruct ((MINYEAR <=? y) && (y <=? MAXYEAR)) eqn:Hy;
    destruct ((1 <=? m) && (m <=? 12)) eqn:Hm;
    destruct ((1 <=? dd) && (dd <=? _days_in_month y m)) eqn:Hd; simpl;
    rewrite ?andb_true_iff, ?andb_false_iff, ?Z.leb_le, ?Z.leb_gt in *;
    split; intros H; try discriminate; try reflexivity; try lia.
Qed.

Lemma fromordinal_valid (n : Z) :
  1 <= n <= _MAXORDINAL -> valid_date (fromordinal n).
Proof.
  intros Hn. apply valid_date_iff.
  pose proof (ymd2ord_ord2ymd n) as H.
  unfold fromordinal. destruct (_ord2ymd n) as [[y m] d]. simpl.
  destruct H as (_ & Hm & Hd & Hy). auto.
Qed.

Lemma month_tables (y m : Z) :
  1 <= m <= 12 ->
  0 <= _days_before_month y m
  /\ _days_before_month y m + _days_in_month y m
     <= 365 + Z.b2z (_is_leap y).
Proof.
  intros H. unfold _days_before_month, _days_in_month.
  assert (Hm : m = 1 \/ m = 2 \/ m = 3 \/ m = 4 \/ m = 5 \/ m = 6 \/ m = 7
               \/ m = 8 \/ m = 9 \/ m = 10 \/ m = 11 \/ m = 12) by lia.
  destruct (_is_leap y);
    repeat (destruct Hm as [-> | Hm]; [cbv; split; discriminate |]);
    subst m; cbv; split; discriminate.
Qed.

Lemma days_before_year_succ (y : Z) :
  _days_before_year (y + 1) = _days_before_year y + 365 + Z.b2z (_is_leap y).
Proof.
  unfold _days_before_year.
  destruct (_is_leap y) eqn:Hl.
  - apply is_leap_spec in Hl. simpl. Z.div_mod_to_equations. lia.
  - assert (Hn : ~ (y mod 4 = 0 /\ (y mod 100 <> 0 \/ y mod 400 = 0))).
    { intros Hc. apply is_leap_spec in Hc. congruence. }
    simpl. Z.div_mod_to_equations. lia.
Qed.

Lemma valid_toordinal (d : date) :
  valid_date d -> 1 <= toordinal d <= _MAXORDINAL.
Proof.
  intros H. apply valid_date_iff in H. destruct H as (Hy & Hm & Hd).
  pose proof (month_tables (date_year d) (date_month d) Hm) as [Hb0 Hb1].
  pose proof (days_before_year_succ (date_year d)) as Hs.
  unfold toordinal, _ymd2ord, _MAXORDINAL, MINYEAR, MAXYEAR in *.
  assert (Hlo : 0 <= _days_before_year (date_year d))
    by (unfold _days_before_year; Z.div_mod_to_equations; lia).
  assert (Hhi : _days_before_year (date_year d + 1) <= 3652059)
    by (unfold _days_before_year; Z.div_mod_to_equations; lia).
  lia.
Qed.

Lemma weekday_range (d : date) : 0 <= weekday d < 7.
Proof. unfold weekday. apply Z.mod_pos_bound. lia. Qed.

End PyDateFacts.

(** ** The business-day stepper *)

Module StepperFacts.
Import PyDate PyDateFacts.

Lemma weekday_fromordinal (n : Z) : weekday (fromordinal n) = (n + 6) mod 7.
Proof. unfold weekday. now rewrite toordinal_fromordinal. Qed.

Lemma sub_days_in_range (d : date) :
  1 < toordinal d <= _MAXORDINAL ->
  sub_days d 1 = Ok (fromordinal (toordinal d - 1)).
Proof.
  intros H. unfold sub_days, add_days, _MAXORDINAL in *.
  replace (toordinal d + - (1)) with (toordinal d - 1) by lia.
  replace ((0 <? toordinal d - 1) && (toordinal d - 1 <=? 3652059))
    with true; [reflexivity|].
  symmetry. apply andb_true_iff. rewrite Z.ltb_lt, Z.leb_le. lia.
Qed.

Lemma sub_days_inv (d d' : date) :
  sub_days d 1 = Ok d' ->
  d' = fromordinal (toordinal d - 1) /\ 1 <= toordinal d - 1 <= _MAXORDINAL.
Proof.
  unfold sub_days, add_days.
  replace (toordinal d + - (1)) with (toordinal d - 1) by lia.
  destruct ((0 <? toordinal d - 1) && (toordinal d - 1 <=? _MAXORDINAL))
    eqn:Hr; [|discriminate].
  intros [= <-]. apply andb_true_iff in Hr.
  rewrite Z.ltb_lt, Z.leb_le in Hr. split; [reflexivity | lia].
Qed.

Lemma loop_business_day (fuel : nat) (d : date) :
  (4 <? weekday d) = false -> previous_business_day_loop fuel d = Ok d.
Proof. intros H. destruct fuel; simpl; now rewrite H. Qed.

Lemma loop_step (fuel : nat) (d : date) :
  (4 <? weekday d) = true ->
  previous_business_day_loop (S fuel) d
  = bind (sub_days d 1) (previous_business_day_loop fuel).
Proof. intros H. simpl. now rewrite H. Qed.

(** The three cases of the stepper on a date whose ordinal is in range. *)
Lemma stepper_weekday (d : date) :
  weekday d <= 4 -> previous_business_day d = Ok d.
Proof.
  intros H. unfold previous_business_day.
  apply loop_business_day. apply Z.ltb_ge. lia.
Qed.

Lemma stepper_saturday (d : date) :
  1 <= toordinal d <= _MAXORDINAL -> weekday d = 5 ->
  previous_business_day d = Ok (fromordinal (toordinal d - 1)).
Proof.
  intros Hr Hw. unfold previous_business_day. rewrite Hw.
  change (Z.to_nat 5) with 5%nat.
  rewrite loop_step by (rewrite Hw; reflexivity).
  assert (Ho : 1 < toordinal d)
    by (unfold weekday in Hw; Z.div_mod_to_equations; lia).
  rewrite sub_days_in_range by lia. cbn [bind].
  apply loop_business_day. rewrite weekday_fromordinal.
  apply Z.ltb_ge. unfold weekday in Hw. Z.div_mod_to_equations. lia.
Qed.

Lemma stepper_sunday (d : date) :
  1 <= toordinal d <= _MAXORDINAL -> weekday d = 6 ->
  previous_business_day d = Ok (fromordinal (toordinal d - 2)).
Proof.
  intros Hr Hw. unfold previous_business_day. rewrite Hw.
  change (Z.to_nat 6) with 6%nat.
  assert (Ho : 7 <= toordinal d)
    by (unfold weekday in Hw; Z.div_mod_to_equations; lia).
  rewrite loop_step by (rewrite Hw; reflexivity).
  rewrite sub_days_in_range by lia. cbn [bind].
  rewrite loop_step.
  2:{ rewrite weekday_fromordinal. apply Z.ltb_lt.
      unfold weekday in Hw. Z.div_mod_to_equations. lia. }
  rewrite sub_days_in_range by (rewrite toordinal_fromordinal; lia).
  cbn [bind]. rewrite toordinal_fromordinal.
  replace (toordinal d - 1 - 1) with (toordinal d - 2) by lia.
  apply loop_business_day. rewrite weekday_fromordinal.
  apply Z.ltb_ge. unfold weekday in Hw. Z.div_mod_to_equations. lia.
Qed.

(** On a date whose ordinal is in range the stepper returns, and its
    result is at most two days earlier. *)
Lemma stepper_total (d : date) :
  1 <= toordinal d <= _MAXORDINAL ->
  exists d', previous_business_day d = Ok d' /\ is_business_day d'
             /\ toordinal d - 2 <= toordinal d' <= toordinal d.
Proof.
  intros Hr. pose proof (weekday_range d) as Hw.
  assert (Hc : weekday d <= 4 \/ weekday d = 5 \/ weekday d = 6) by lia.
  destruct Hc as [Hc | [Hc | Hc]].
  - exists d. split; [now apply stepper_weekday|].
    unfold is_business_day. lia.
  - exists (fromordinal (toordinal d - 1)).
    split; [now apply stepper_saturday|].
    unfold is_business_day.
    rewrite weekday_fromordinal, toordinal_fromordinal.
    unfold weekday in Hc. split; [Z.div_mod_to_equations|]; lia.
  - exists (fromordinal (toordinal d - 2)).
    split; [now apply stepper_sunday|].
    unfold is_business_day.
    rewrite weekday_fromordinal, toordinal_fromordinal.
    unfold weekday in Hc. split; [Z.div_mod_to_equations|]; lia.
Qed.

Lemma sub_days_err (d : date) (e : exception) :
  sub_days d 1 = Err e -> e = OverflowError "result out of range".
Proof.
  unfold sub_days, add_days.
  destruct ((0 <? toordinal d + - (1)) && (toordinal d + - (1) <=? _MAXORDINAL)).
  - discriminate.
  - intros [= <-]. reflexivity.
Qed.

Lemma loop_after_friday (fuel : nat) (d : date) :
  weekday d = 5 ->
  previous_business_day_loop (S fuel) d <> Err LoopBound.
Proof.
  intros Hc.
  rewrite loop_step by (rewrite Hc; reflexivity).
  destruct (sub_days d 1) as [d1|e] eqn:Hs.
  - apply sub_days_inv in Hs as [-> Hr]. cbn [bind].
    rewrite loop_business_day; [discriminate|].
    rewrite weekday_fromordinal. apply Z.ltb_ge.
    unfold weekday in Hc. Z.div_mod_to_equations. lia.
  - apply sub_days_err in Hs. subst e. cbn [bind]. discriminate.
Qed.

Lemma loop_after_saturday (fuel : nat) (d : date) :
  weekday d = 6 ->
  previous_business_day_loop (S (S fuel)) d <> Err LoopBound.
Proof.
  intros Hc.
  rewrite loop_step by (rewrite Hc; reflexivity).
  destruct (sub_days d 1) as [d1|e] eqn:Hs.
  - apply sub_days_inv in Hs as [-> Hr]. cbn [bind].
    apply loop_after_friday.
    rewrite weekday_fromordinal.
    unfold weekday in Hc. Z.div_mod_to_equations. lia.
  - apply sub_days_err in Hs. subst e. cbn [bind]. discriminate.
Qed.

(** The bound given to the loop is never reached, on any [date] record. *)
Theorem previous_business_day_loop_bound (d : date) :
  previous_business_day d <> Err LoopBound.
Proof.
  pose proof (weekday_range d) as Hw.
  assert (Hc : weekday d <= 4 \/ weekday d = 5 \/ weekday d = 6) by lia.
  unfold previous_business_day.
  destruct Hc as [Hc | [Hc | Hc]].
  - rewrite loop_business_day by (apply Z.ltb_ge; lia). discriminate.
  - rewrite Hc. apply (loop_after_friday 4 d Hc).
  - rewrite Hc. apply (loop_after_saturday 4 d Hc).
Qed.

(** C3.  On every civil date the stepper returns a civil date that falls
    on Monday to Friday; the result is the argument exactly when the
    argument falls on Monday to Friday; a Saturday (weekday 5) is sent to
    the Friday one day earlier and a Sunday (weekday 6) to the Friday two
    days earlier. *)
Theorem previous_business_day_spec (d : date) :
  valid_date d ->
  exists d',
    previous_business_day d = Ok d' /\ valid_date d' /\ is_business_day d'
    /\ (d' = d <-> is_business_day d)
    /\ (weekday d = 5 -> weekday d' = 4 /\ toordinal d' = toordinal d - 1)
    /\ (weekday d = 6 -> weekday d' = 4 /\ toordinal d' = toordinal d - 2).
Proof.
  intros Hv. pose proof (valid_toordinal d Hv) as Hr.
  pose proof (weekday_range d) as Hw.
  assert (Hc : weekday d <= 4 \/ weekday d = 5 \/ weekday d = 6) by lia.
  destruct Hc as [Hc | [Hc | Hc]].
  - exists d. rewrite stepper_weekday by assumption.
    unfold is_business_day.
    split; [reflexivity|]. split; [assumption|]. split; [lia|].
    split; [split; intros; [lia | reflexivity]|]. split; intros; lia.
  - assert (Ho : 1 < toordinal d)
      by (unfold weekday in Hc; Z.div_mod_to_equations; lia).
    exists (fromordinal (toordinal d - 1)).
    rewrite stepper_saturday by assumption.
    assert (Hf : weekday (fromordinal (toordinal d - 1)) = 4).
    { rewrite weekday_fromordinal. unfold weekday in Hc.
      Z.div_mod_to_equations. lia. }
    unfold is_business_day.
    split; [reflexivity|]. split; [apply fromordinal_valid; lia|].
    split; [lia|]. split.
    + split; intros E; [rewrite E in Hf|]; lia.
    + rewrite toordinal_fromordinal. split; intros; lia.
  - assert (Ho : 7 <= toordinal d)
      by (unfold weekday in Hc; Z.div_mod_to_equations; lia).
    exists (fromordinal (toordinal d - 2)).
    rewrite stepper_sunday by assumption.
    assert (Hf : weekday (fromordinal (toordinal d - 2)) = 4).
    { rewrite weekday_fromordinal. unfold weekday in Hc.
      Z.div_mod_to_equations. lia. }
    unfold is_business_day.
    split; [reflexivity|]. split; [apply fromordinal_valid; lia|].
    split; [lia|]. split.
    + split; intros E; [rewrite E in Hf|]; lia.
    + rewrite toordinal_fromordinal. split; intros; lia.
Qed.

(** C4.  The stepper is idempotent: on every civil date it returns a date
    on which it returns that same date again. *)
Theorem previous_business_day_idempotent (d : date) :
  valid_date d ->
  exists d',
    previous_business_day d = Ok d' /\ previous_business_day d' = Ok d'
    /\ bind (previous_business_day d) previous_business_day
       = previous_business_day d.
Proof.
  intros Hv.
  destruct (stepper_total d (valid_toordinal d Hv)) as (d' & Hd & Hb & _).
  exists d'. rewrite Hd. simpl.
  assert (Hi : previous_business_day d' = Ok d')
    by (apply stepper_weekday; unfold is_business_day in Hb; lia).
  auto.
Qed.

End StepperFacts.

(** ** Parsing and formatting dates *)

Module PyTimeFacts.
Import PyDate PyTime PyDateFacts.

Ltac zcases m lo n :=
  lazymatch n with
  | O => exfalso; lia
  | S ?n' =>
      destruct (Z.eq_dec m lo) as [->|?];
      [ | let lo' := eval cbv in (lo + 1) in zcases m lo' n' ]
  end.

Ltac eval_tests :=
  repeat match goal with
    | |- context [Ascii.eqb ?a ?b] =>
        let v := eval vm_compute in (Ascii.eqb a b) in
        change (Ascii.eqb a b) with v
    | |- context [in_range ?a ?b ?c] =>
        let v := eval vm_compute in (in_range a b c) in
        change (in_range a b c) with v
    | |- context [is_digit ?a] =>
        let v := eval vm_compute in (is_digit a) in
        change (is_digit a) with v
    end.

Lemma length_append (p rest : string) :
  String.length (p ++ rest) = (String.length p + String.length rest)%nat.
Proof. induction p; simpl; congruence. Qed.

Lemma substring_prefix (p rest : string) :
  substring 0 (String.length p) (p ++ rest) = p.
Proof.
  induction p as [|c p IH]; simpl.
  - destruct rest; reflexivity.
  - now rewrite IH.
Qed.

Lemma consumed_app (p rest : string) : consumed (p ++ rest) rest = p.
Proof.
  unfold consumed. rewrite length_append.
  replace (String.length p + String.length rest - String.length rest)%nat
    with (String.length p) by lia.
  apply substring_prefix.
Qed.

Lemma consumed_2 (a b : ascii) (rest : string) :
  consumed (String a (String b rest)) rest = String a (String b "").
Proof. apply (consumed_app (String a (String b "")) rest). Qed.

Lemma consumed_4 (a b c d : ascii) (rest : string) :
  consumed (String a (String b (String c (String d rest)))) rest
  = String a (String b (String c (String d ""))).
Proof. apply (consumed_app (String a (String b (String c (String d ""))))). Qed.

Lemma rmatch_Y {R : Type} (c3 c2 c1 c0 : ascii) (rest : string) (g : dict)
  (k : string -> dict -> option R) :
  is_digit c3 = true -> is_digit c2 = true ->
  is_digit c1 = true -> is_digit c0 = true ->
  rmatch re_Y (String c3 (String c2 (String c1 (String c0 rest)))) g k
  = k rest (("Y", String c3 (String c2 (String c1 (String c0 "")))) :: g).
Proof.
  intros H3 H2 H1 H0. unfold re_Y. cbn [rmatch].
  rewrite H3, H2, H1, H0. now rewrite consumed_4.
Qed.

Lemma rmatch_m {R : Type} (m : Z) (rest : string) (g : dict)
  (k : string -> dict -> option R) (x : R) :
  1 <= m <= 12 ->
  k rest (("m", zero_pad2 m) :: g) = Some x ->
  rmatch re_m (zero_pad2 m ++ rest) g k = Some x.
Proof.
  intros Hm.
  zcases m 1 12%nat;
    match goal with
    | |- context [zero_pad2 ?n] =>
        let v := eval vm_compute in (zero_pad2 n) in
        change (zero_pad2 n) with v
    end;
    intros Hk; unfold re_m; cbn [rmatch append]; eval_tests; cbn beta iota;
    rewrite ?consumed_2, ?Hk; reflexivity.
Qed.

Lemma rmatch_d {R : Type} (d : Z) (rest : string) (g : dict)
  (k : string -> dict -> option R) (x : R) :
  1 <= d <= 31 ->
  k rest (("d", zero_pad2 d) :: g) = Some x ->
  rmatch re_d (zero_pad2 d ++ rest) g k = Some x.
Proof.
  intros Hd.
  zcases d 1 31%nat;
    match goal with
    | |- context [zero_pad2 ?n] =>
        let v := eval vm_compute in (zero_pad2 n) in
        change (zero_pad2 n) with v
    end;
    intros Hk; unfold re_d; cbn [rmatch append]; eval_tests; cbn beta iota;
    rewrite ?consumed_2, ?Hk; reflexivity.
Qed.

Lemma digit_char_facts (n : Z) :
  0 <= n <= 9 ->
  is_digit (digit_char n) = true /\ digit_value (digit_char n) = n
  /\ Ascii.eqb (digit_char n) " " = false.
Proof.
  intros H. zcases n 0 10%nat; vm_compute; auto.
Qed.

Lemma int_zero_pad4 (y : Z) : 0 <= y <= 9999 -> int (zero_pad4 y) = Ok y.
Proof.
  intros H. unfold zero_pad4, zero_pad2, int.
  assert (H3 : 0 <= y / 1000 mod 10 <= 9) by (Z.div_mod_to_equations; lia).
  assert (H2 : 0 <= y / 100 mod 10 <= 9) by (Z.div_mod_to_equations; lia).
  assert (H1 : 0 <= y / 10 mod 10 <= 9) by (Z.div_mod_to_equations; lia).
  assert (H0 : 0 <= y mod 10 <= 9) by (Z.div_mod_to_equations; lia).
  destruct (digit_char_facts _ H3) as (D3 & V3 & S3).
  destruct (digit_char_facts _ H2) as (D2 & V2 & _).
  destruct (digit_char_facts _ H1) as (D1 & V1 & _).
  destruct (digit_char_facts _ H0) as (D0 & V0 & _).
  cbn [lstrip]. rewrite S3. cbn [int_digits].
  rewrite D3, D2, D1, D0, V3, V2, V1, V0. f_equal.
  Z.div_mod_to_equations. lia.
Qed.

Lemma int_zero_pad2 (m : Z) : 0 <= m <= 99 -> int (zero_pad2 m) = Ok m.
Proof.
  intros H. unfold zero_pad2, int.
  assert (H1 : 0 <= m / 10 mod 10 <= 9) by (Z.div_mod_to_equations; lia).
  assert (H0 : 0 <= m mod 10 <= 9) by (Z.div_mod_to_equations; lia).
  destruct (digit_char_facts _ H1) as (D1 & V1 & S1).
  destruct (digit_char_facts _ H0) as (D0 & V0 & _).
  cbn [lstrip]. rewrite S1. cbn [int_digits].
  rewrite D1, D0, V1, V0. f_equal.
  Z.div_mod_to_equations. lia.
Qed.

Lemma strftime_iso (d : date) :
  strftime d "%Y-%m-%d"
  = (zero_pad4 (date_year d) ++ "-" ++ zero_pad2 (date_month d) ++ "-"
     ++ zero_pad2 (date_day d))%string.
Proof.
  cbn [strftime]. eval_tests. cbn beta iota.
  unfold directive. eval_tests. cbn beta iota.
  reflexivity.
Qed.

Lemma append_empty_r (p : string) : (p ++ "")%string = p.
Proof. induction p as [|c p IH]; simpl; congruence. Qed.

Lemma days_in_month_le_31 (y m : Z) : 1 <= m <= 12 -> _days_in_month y m <= 31.
Proof.
  intros H. unfold _days_in_month.
  destruct ((m =? 2) && _is_leap y); [lia|].
  zcases m 1 12%nat; vm_compute; discriminate.
Qed.

Lemma re_match_iso (d : date) :
  valid_date d ->
  re_match format_regex (strftime d "%Y-%m-%d")
  = Some ("", [("d", zero_pad2 (date_day d)); ("m", zero_pad2 (date_month d));
               ("Y", zero_pad4 (date_year d))]).
Proof.
  intros Hv. apply valid_date_iff in Hv. destruct Hv as (Hy & Hm & Hd).
  unfold MINYEAR, MAXYEAR in Hy.
  pose proof (days_in_month_le_31 (date_year d) _ Hm) as H31.
  rewrite strftime_iso.
  unfold re_match, format_regex. cbn [rmatch].
  unfold zero_pad4 at 1. unfold zero_pad2 at 1. cbn [append].
  rewrite rmatch_Y;
    try (apply digit_char_facts; Z.div_mod_to_equations; lia).
  eval_tests. cbn beta iota.
  apply rmatch_m; [lia|].
  cbn [append]. eval_tests. cbn beta iota.
  rewrite <- (append_empty_r (zero_pad2 (date_day d))) at 1.
  apply rmatch_d; [lia|].
  reflexivity.
Qed.

Theorem strptime_strftime (d : date) :
  valid_date d -> strptime_date (strftime d "%Y-%m-%d") = Ok d.
Proof.
  intros Hv. unfold strptime_date. rewrite (re_match_iso d Hv).
  pose proof Hv as Hv'.
  apply valid_date_iff in Hv'. destruct Hv' as (Hy & Hm & Hd).
  unfold MINYEAR, MAXYEAR in Hy.
  pose proof (days_in_month_le_31 (date_year d) _ Hm) as H31.
  change (negb (String.eqb "" "")) with false. cbn beta iota.
  change (dict_getitem _ "Y") with (Ok (zero_pad4 (date_year d))).
  cbn [bind]. rewrite int_zero_pad4 by lia. cbn [bind].
  change (dict_getitem _ "m") with (Ok (zero_pad2 (date_month d))).
  cbn [bind]. rewrite int_zero_pad2 by lia. cbn [bind].
  change (dict_getitem _ "d") with (Ok (zero_pad2 (date_day d))).
  cbn [bind]. rewrite int_zero_pad2 by lia. cbn [bind].
  exact Hv.
Qed.

Lemma rmatch_groupless {R : Type} (r : regex) :
  groupless r = true ->
  forall (s : string) (g : dict) (k : string -> dict -> option R) (x : R),
    rmatch r s g k = Some x -> exists rest, k rest g = Some x.
Proof.
  induction r as [c|lo hi| |r1 IH1 r2 IH2|r1 IH1 r2 IH2|name r IH];
    simpl; intros Hg s g k x H; try discriminate.
  - destruct s as [|c' rest]; [discriminate|].
    destruct (Ascii.eqb c c'); [eauto | discriminate].
  - destruct s as [|c' rest]; [discriminate|].
    destruct (in_range lo hi c'); [eauto | discriminate].
  - destruct s as [|c' rest]; [discriminate|].
    destruct (is_digit c'); [eauto | discriminate].
  - apply andb_prop in Hg as [Hg1 Hg2].
    apply (IH1 Hg1) in H as [rest1 H]. now apply (IH2 Hg2) in H.
  - apply andb_prop in Hg as [Hg1 Hg2].
    destruct (rmatch r1 s g k) as [y|] eqn:E.
    + injection H as <-. now apply (IH1 Hg1) in E.
    + now apply (IH2 Hg2) in H.
Qed.

Lemma rmatch_group {R : Type} (name : string) (r : regex) :
  groupless r = true ->
  forall (s : string) (g : dict) (k : string -> dict -> option R) (x : R),
    rmatch (Group name r) s g k = Some x ->
    exists rest text, k rest ((name, text) :: g) = Some x.
Proof.
  intros Hg s g k x H. cbn [rmatch] in H.
  apply (rmatch_groupless r Hg) in H as [rest H]. eauto.
Qed.

Lemma re_match_groups (s rest : string) (found_dict : dict) :
  re_match format_regex s = Some (rest, found_dict) ->
  exists Y m d, found_dict = [("d", d); ("m", m); ("Y", Y)].
Proof.
  unfold re_match, format_regex. intros H.
  cbn [rmatch] in H. unfold re_Y, re_m, re_d in H.
  apply rmatch_group in H as (r1 & Y & H); [|reflexivity].
  destruct r1 as [|c1 r1]; [discriminate|].
  destruct (Ascii.eqb "-" c1); [|discriminate].
  apply rmatch_group in H as (r2 & m & H); [|reflexivity].
  destruct r2 as [|c2 r2]; [discriminate|].
  destruct (Ascii.eqb "-" c2); [|discriminate].
  apply rmatch_group in H as (r3 & d & H); [|reflexivity].
  injection H as _ <-. eauto.
Qed.

Lemma int_value_error (s : string) :
  (exists n, int s = Ok n) \/ (exists msg, int s = Err (ValueError msg)).
Proof.
  unfold int. destruct (lstrip s) as [|c rest]; [right; eauto|].
  generalize 0 (String c rest). intros acc digits. revert acc.
  induction digits as [|c' digits IH]; intros acc; simpl; [left; eauto|].
  destruct (is_digit c'); [apply IH | right; eauto].
Qed.

Lemma check_date_fields_cases (y m d : Z) :
  (_check_date_fields y m d = Ok (mkdate y m d) /\ valid_date (mkdate y m d))
  \/ (exists msg, _check_date_fields y m d = Err (ValueError msg)).
Proof.
  unfold valid_date. simpl. unfold _check_date_fields.
  destruct (negb _); [right; eauto|].
  destruct (negb _); [right; eauto|].
  destruct (negb _); [right; eauto|].
  left. auto.
Qed.

Theorem strptime_date_cases (s : string) :
  (exists d, strptime_date s = Ok d /\ valid_date d)
  \/ (exists msg, strptime_date s = Err (ValueError msg)).
Proof.
  unfold strptime_date.
  destruct (re_match format_regex s) as [[rest fd]|] eqn:E; [|right; eauto].
  destruct (negb (String.eqb rest "")); [right; eauto|].
  apply re_match_groups in E as (Y & m & d & ->).
  change (dict_getitem _ "Y") with (Ok Y).
  change (dict_getitem _ "m") with (Ok m).
  change (dict_getitem _ "d") with (Ok d).
  cbn [bind].
  destruct (int_value_error Y) as [[y ->]|[msg ->]]; cbn [bind];
    [|right; eauto].
  destruct (int_value_error m) as [[mo ->]|[msg ->]]; cbn [bind];
    [|right; eauto].
  destruct (int_value_error d) as [[dd ->]|[msg ->]]; cbn [bind];
    [|right; eauto].
  destruct (check_date_fields_cases y mo dd) as [[-> Hv]|[msg ->]];
    [left; exists (mkdate y mo dd); auto | right; eauto].
Qed.

End PyTimeFacts.

(** ** The report-date resolver and the source locator *)

Module ResolverFacts.
Import PyDate PyTime PyDateFacts StepperFacts PyTimeFacts.

Lemma add_seconds_cases (dt : datetime) (seconds : Z) :
  (exists dt', add_seconds dt seconds = Ok dt'
               /\ 1 <= toordinal (dt_date dt') <= _MAXORDINAL
               /\ valid_date (dt_date dt'))
  \/ add_seconds dt seconds = Err (OverflowError "result out of range").
Proof.
  unfold add_seconds.
  set (days := toordinal (dt_date dt)
               + (hour dt * 3600 + minute dt * 60 + second dt + seconds)
                 / 86400).
  destruct ((0 <? days) && (days <=? _MAXORDINAL)) eqn:Hr; [left | now right].
  apply andb_true_iff in Hr. rewrite Z.ltb_lt, Z.leb_le in Hr.
  eexists. split; [reflexivity|]. cbn [dt_date].
  rewrite toordinal_fromordinal.
  split; [lia | apply fromordinal_valid; lia].
Qed.

Lemma astimezone_cases (now : datetime) (tz : ZoneInfo) :
  (exists now_ab, astimezone now tz = Ok now_ab
                  /\ 1 <= toordinal (dt_date now_ab) <= _MAXORDINAL
                  /\ valid_date (dt_date now_ab))
  \/ astimezone now tz = Err (OverflowError "result out of range").
Proof.
  unfold astimezone, fromutc.
  destruct (add_seconds_cases now (- 0)) as [(utc & -> & _)| ->];
    [|now right].
  cbn [bind]. apply add_seconds_cases.
Qed.

Lemma stepper_valid (d d' : date) :
  valid_date d -> previous_business_day d = Ok d' -> valid_date d'.
Proof.
  intros Hv H. pose proof (valid_toordinal d Hv) as Hr.
  pose proof (weekday_range d) as Hw.
  assert (Hc : weekday d <= 4 \/ weekday d = 5 \/ weekday d = 6) by lia.
  destruct Hc as [Hc | [Hc | Hc]].
  - rewrite stepper_weekday in H by assumption. now injection H as <-.
  - rewrite stepper_saturday in H by assumption. injection H as <-.
    apply fromordinal_valid.
    unfold weekday in Hc. Z.div_mod_to_equations. lia.
  - rewrite stepper_sunday in H by assumption. injection H as <-.
    apply fromordinal_valid.
    unfold weekday in Hc. Z.div_mod_to_equations. lia.
Qed.

(** The rule-based branch of the resolver, once local time is known. *)
Lemma resolve_rules (tz : ZoneInfo) (w : process) (dataset : string)
  (now_utc : option datetime) :
  no_override w ->
  resolve_report_date tz w dataset now_utc
  = bind (astimezone (instant_of w now_utc) tz)
      (fun now_ab =>
         let day := dt_date now_ab in
         if String.eqb dataset "ST1" then
           if hour now_ab <? 10 then
             bind (sub_days day 1) previous_business_day
           else previous_business_day day
         else if String.eqb dataset "ST100" then
           if 4 <? weekday day then previous_business_day day
           else if hour now_ab <? 21 then
             bind (sub_days day 1) previous_business_day
           else previous_business_day day
         else Err (unknown_dataset dataset)).
Proof.
  intros [H | H]; unfold resolve_report_date; rewrite H; reflexivity.
Qed.

Lemma yesterday_business_day (day : date) :
  1 <= toordinal day <= _MAXORDINAL ->
  1 < toordinal day ->
  exists d, bind (sub_days day 1) previous_business_day = Ok d
            /\ is_business_day d.
Proof.
  intros Hr H1. rewrite sub_days_in_range by lia. cbn [bind].
  destruct (stepper_total (fromordinal (toordinal day - 1)))
    as (d & Hd & Hb & _).
  - rewrite toordinal_fromordinal. lia.
  - eauto.
Qed.

Lemma today_business_day (day : date) :
  1 <= toordinal day <= _MAXORDINAL ->
  exists d, previous_business_day day = Ok d /\ is_business_day d.
Proof.
  intros Hr. destruct (stepper_total day Hr) as (d & Hd & Hb & _). eauto.
Qed.

(** C1.  With no override, dataset ST1: before 10 o'clock publisher-local
    time the resolver returns the business-day step of the day before the
    local date, from 10 o'clock on the business-day step of the local date
    itself.  It returns a date unless the local date is the first day of
    the calendar and the hour is before 10. *)
Theorem resolve_report_date_ST1 (tz : ZoneInfo) (w : process)
  (now_utc : option datetime) (now_ab : datetime) :
  no_override w ->
  astimezone (instant_of w now_utc) tz = Ok now_ab ->
  let local_date := dt_date now_ab in
  (hour now_ab < 10 ->
   resolve_report_date tz w "ST1" now_utc
   = bind (sub_days local_date 1) previous_business_day)
  /\ (10 <= hour now_ab ->
      resolve_report_date tz w "ST1" now_utc
      = previous_business_day local_date)
  /\ (10 <= hour now_ab \/ 1 < toordinal local_date ->
      exists d, resolve_report_date tz w "ST1" now_utc = Ok d
                /\ is_business_day d).
Proof.
  intros Hno Hab local_date.
  rewrite (resolve_rules tz w "ST1" now_utc Hno), Hab. cbn [bind].
  change (String.eqb "ST1" "ST1") with true. cbv beta iota zeta.
  fold local_date.
  assert (Hr : 1 <= toordinal local_date <= _MAXORDINAL).
  { destruct (astimezone_cases (instant_of w now_utc) tz)
      as [(x & Hx & Hr & _) | Hx]; rewrite Hab in Hx; [|discriminate].
    injection Hx as <-. exact Hr. }
  destruct (hour now_ab <? 10) eqn:Hh;
    [apply Z.ltb_lt in Hh | apply Z.ltb_ge in Hh].
  - split; [reflexivity|]. split; [lia|].
    intros [H | H]; [lia|]. now apply yesterday_business_day.
  - split; [lia|]. split; [reflexivity|].
    intros _. now apply today_business_day.
Qed.

(** C2.  With no override, dataset ST100: on a publisher-local Saturday or
    Sunday the resolver returns the business-day step of the local date;
    on the other days, before 21 o'clock local time the business-day step
    of the day before the local date, and from 21 o'clock on the
    business-day step of the local date. *)
Theorem resolve_report_date_ST100 (tz : ZoneInfo) (w : process)
  (now_utc : option datetime) (now_ab : datetime) :
  no_override w ->
  astimezone (instant_of w now_utc) tz = Ok now_ab ->
  let local_date := dt_date now_ab in
  (weekday local_date = 5 \/ weekday local_date = 6 ->
   resolve_report_date tz w "ST100" now_utc
   = previous_business_day local_date)
  /\ (weekday local_date <= 4 -> hour now_ab < 21 ->
      resolve_report_date tz w "ST100" now_utc
      = bind (sub_days local_date 1) previous_business_day)
  /\ (weekday local_date <= 4 -> 21 <= hour now_ab ->
      resolve_report_date tz w "ST100" now_utc
      = previous_business_day local_date)
  /\ (4 < weekday local_date \/ 21 <= hour now_ab \/ 1 < toordinal local_date ->
      exists d, resolve_report_date tz w "ST100" now_utc = Ok d
                /\ is_business_day d).
Proof.
  intros Hno Hab local_date.
  rewrite (resolve_rules tz w "ST100" now_utc Hno), Hab. cbn [bind].
  change (String.eqb "ST100" "ST1") with false.
  change (String.eqb "ST100" "ST100") with true. cbv beta iota zeta.
  fold local_date.
  assert (Hr : 1 <= toordinal local_date <= _MAXORDINAL).
  { destruct (astimezone_cases (instant_of w now_utc) tz)
      as [(x & Hx & Hr & _) | Hx]; rewrite Hab in Hx; [|discriminate].
    injection Hx as <-. exact Hr. }
  destruct (4 <? weekday local_date) eqn:Hw;
    [apply Z.ltb_lt in Hw | apply Z.ltb_ge in Hw].
  - split; [reflexivity|]. split; [lia|]. split; [lia|].
    intros _. now apply today_business_day.
  - split; [lia|].
    destruct (hour now_ab <? 21) eqn:Hh;
      [apply Z.ltb_lt in Hh | apply Z.ltb_ge in Hh].
    + split; [reflexivity|]. split; [lia|].
      intros [H | [H | H]]; [lia | lia |]. now apply yesterday_business_day.
    + split; [lia|]. split; [reflexivity|].
      intros _. now apply today_business_day.
Qed.

(** The outcomes of rule-based resolution: a business day that is a civil
    date, an overflow of the calendar, or the unknown-dataset error. *)
Lemma resolve_rules_outcome (tz : ZoneInfo) (w : process) (dataset : string)
  (now_utc : option datetime) :
  no_override w ->
  (exists d, resolve_report_date tz w dataset now_utc = Ok d
             /\ is_business_day d /\ valid_date d)
  \/ resolve_report_date tz w dataset now_utc
     = Err (OverflowError "result out of range")
  \/ (dataset <> "ST1" /\ dataset <> "ST100"
      /\ resolve_report_date tz w dataset now_utc
         = Err (unknown_dataset dataset)).
Proof.
  intros Hno. rewrite (resolve_rules tz w dataset now_utc Hno).
  destruct (astimezone_cases (instant_of w now_utc) tz)
    as [(now_ab & -> & Hr & Hv) | ->]; [|right; left; reflexivity].
  cbn [bind]. cbv zeta.
  assert (Htoday :
    (exists d, previous_business_day (dt_date now_ab) = Ok d
               /\ is_business_day d /\ valid_date d)).
  { destruct (today_business_day _ Hr) as (d & Hd & Hb).
    exists d. eauto using stepper_valid. }
  assert (Hyesterday :
    (exists d, bind (sub_days (dt_date now_ab) 1) previous_business_day = Ok d
               /\ is_business_day d /\ valid_date d)
    \/ bind (sub_days (dt_date now_ab) 1) previous_business_day
       = Err (OverflowError "result out of range")).
  { destruct (sub_days (dt_date now_ab) 1) as [y|e] eqn:Hs; cbn [bind].
    - apply sub_days_inv in Hs as [-> Hy]. left.
      destruct (today_business_day (fromordinal (toordinal (dt_date now_ab) - 1)))
        as (d & Hd & Hb); [rewrite toordinal_fromordinal; lia|].
      exists d. split; [assumption|]. split; [assumption|].
      eapply stepper_valid; [|eassumption]. apply fromordinal_valid. lia.
    - right. apply sub_days_err in Hs. now subst e. }
  destruct (String.eqb dataset "ST1") eqn:E1.
  { destruct (hour now_ab <? 10); [destruct Hyesterday|]; auto. }
  destruct (String.eqb dataset "ST100") eqn:E2.
  { destruct (4 <? weekday (dt_date now_ab)); [auto|].
    destruct (hour now_ab <? 21); [destruct Hyesterday|]; auto. }
  right; right. apply String.eqb_neq in E1, E2. auto.
Qed.

(** A non-empty override is parsed and nothing else is looked at. *)
Lemma resolve_override (tz : ZoneInfo) (w : process) (dataset : string)
  (now_utc : option datetime) (override : string) :
  getenv_REPORT_DATE w = Some override -> override <> "" ->
  resolve_report_date tz w dataset now_utc = strptime_date override.
Proof.
  intros H Hne. unfold resolve_report_date. rewrite H.
  destruct override; [congruence | reflexivity].
Qed.

(** C6, as amended.  For a tag other than ST1 and ST100: [build_url]
    fails with the unknown-dataset error on every date; with no override
    the resolver never returns a date, and fails with the unknown-dataset
    error whenever the instant converts to local time; with an override
    the resolver does not look at the tag; [s3_key] does not check the tag
    and builds the key from its lower-cased text. *)
Theorem unknown_dataset_rejected (tz : ZoneInfo) (w : process)
  (dataset : string) (now_utc : option datetime) :
  dataset <> "ST1" -> dataset <> "ST100" ->
  (forall day, build_url dataset day = Err (unknown_dataset dataset))
  /\ (no_override w ->
      (forall d, resolve_report_date tz w dataset now_utc <> Ok d)
      /\ (forall now_ab,
            astimezone (instant_of w now_utc) tz = Ok now_ab ->
            resolve_report_date tz w dataset now_utc
            = Err (unknown_dataset dataset)))
  /\ (forall override,
        getenv_REPORT_DATE w = Some override -> override <> "" ->
        resolve_report_date tz w dataset now_utc = strptime_date override)
  /\ (forall day ext,
        s3_key day dataset ext
        = (strftime day "%Y/%m/%d" ++ "/" ++ lower dataset ++ "_"
           ++ strftime day "%Y%m%d" ++ "." ++ ext)%string).
Proof.
  intros H1 H100.
  apply String.eqb_neq in H1, H100.
  split; [|split; [|split]].
  - intros day. unfold build_url. now rewrite H1, H100.
  - intros Hno. rewrite (resolve_rules tz w dataset now_utc Hno).
    rewrite H1, H100. split.
    + intros d. destruct (astimezone _ tz); discriminate.
    + intros now_ab ->. reflexivity.
  - intros override Ho Hne.
    apply (resolve_override tz w dataset now_utc override Ho Hne).
  - intros day ext. unfold s3_key, fstring. cbn [String.concat].
    reflexivity.
Qed.

(** C7, as amended.  With no override, every date the resolver returns
    is a civil date that falls on Monday to Friday. *)
Theorem resolve_report_date_business_day (tz : ZoneInfo) (w : process)
  (dataset : string) (now_utc : option datetime) (d : date) :
  no_override w ->
  resolve_report_date tz w dataset now_utc = Ok d ->
  is_business_day d /\ valid_date d.
Proof.
  intros Hno H.
  destruct (resolve_rules_outcome tz w dataset now_utc Hno)
    as [(d' & Hd & Hb & Hv) | [He | (_ & _ & He)]]; rewrite H in *.
  - injection Hd as ->. auto.
  - discriminate.
  - discriminate.
Qed.

(** C10.  An empty [REPORT_DATE] is treated as an absent one.  The
    resolver gives what it gives with the variable unset, which is not the
    error that parsing the empty string gives, and that is the result of
    the rules: the error of the conversion when the instant does not
    convert to local time; otherwise, for ST1 the business-day step of
    the day before the local date before 10 o'clock and of the local date
    from 10 o'clock on; for ST100 the step of the local date on a
    Saturday or Sunday, and on the other days the step of the day before
    the local date before 21 o'clock and of the local date from 21
    o'clock on; for any other tag the unknown-dataset error.  A date it
    returns falls on Monday to Friday. *)
Theorem resolve_report_date_empty_override (tz : ZoneInfo) (w : process)
  (dataset : string) (now_utc : option datetime) :
  getenv_REPORT_DATE w = Some "" ->
  resolve_report_date tz w dataset now_utc
  = resolve_report_date tz (mkprocess None (utcnow w) (calls w)) dataset
      now_utc
  /\ (exists msg, strptime_date "" = Err (ValueError msg))
  /\ resolve_report_date tz w dataset now_utc <> strptime_date ""
  /\ (forall e,
        astimezone (instant_of w now_utc) tz = Err e ->
        resolve_report_date tz w dataset now_utc = Err e)
  /\ (forall now_ab,
        astimezone (instant_of w now_utc) tz = Ok now_ab ->
        let local_date := dt_date now_ab in
        (dataset = "ST1" -> hour now_ab < 10 ->
         resolve_report_date tz w dataset now_utc
         = bind (sub_days local_date 1) previous_business_day)
        /\ (dataset = "ST1" -> 10 <= hour now_ab ->
            resolve_report_date tz w dataset now_utc
            = previous_business_day local_date)
        /\ (dataset = "ST100" -> 4 < weekday local_date ->
            resolve_report_date tz w dataset now_utc
            = previous_business_day local_date)
        /\ (dataset = "ST100" -> weekday local_date <= 4 ->
            hour now_ab < 21 ->
            resolve_report_date tz w dataset now_utc
            = bind (sub_days local_date 1) previous_business_day)
        /\ (dataset = "ST100" -> weekday local_date <= 4 ->
            21 <= hour now_ab ->
            resolve_report_date tz w dataset now_utc
            = previous_business_day local_date)
        /\ (dataset <> "ST1" -> dataset <> "ST100" ->
            resolve_report_date tz w dataset now_utc
            = Err (unknown_dataset dataset)))
  /\ (forall d,
        resolve_report_date tz w dataset now_utc = Ok d ->
        is_business_day d /\ valid_date d).
Proof.
  intros H.
  assert (Hno : no_override w) by (now right).
  split; [unfold resolve_report_date; rewrite H; reflexivity|].
  split; [eexists; reflexivity|].
  split.
  { destruct (resolve_rules_outcome tz w dataset now_utc Hno)
      as [(d & -> & _) | [-> | (_ & _ & ->)]]; discriminate. }
  split.
  { intros e He. rewrite (resolve_rules tz w dataset now_utc Hno), He.
    reflexivity. }
  split.
  { intros now_ab Hab local_date.
    rewrite (resolve_rules tz w dataset now_utc Hno), Hab. cbn [bind].
    cbv zeta. fold local_date.
    repeat split.
    - intros -> Hh. change (String.eqb "ST1" "ST1") with true. cbv iota.
      apply Z.ltb_lt in Hh. now rewrite Hh.
    - intros -> Hh. change (String.eqb "ST1" "ST1") with true. cbv iota.
      apply Z.ltb_ge in Hh. now rewrite Hh.
    - intros -> Hwd. change (String.eqb "ST100" "ST1") with false.
      change (String.eqb "ST100" "ST100") with true. cbv iota.
      apply Z.ltb_lt in Hwd. now rewrite Hwd.
    - intros -> Hwd Hh. change (String.eqb "ST100" "ST1") with false.
      change (String.eqb "ST100" "ST100") with true. cbv iota.
      apply Z.ltb_ge in Hwd. apply Z.ltb_lt in Hh. now rewrite Hwd, Hh.
    - intros -> Hwd Hh. change (String.eqb "ST100" "ST1") with false.
      change (String.eqb "ST100" "ST100") with true. cbv iota.
      apply Z.ltb_ge in Hwd. apply Z.ltb_ge in Hh. now rewrite Hwd, Hh.
    - intros H1 H100. apply String.eqb_neq in H1, H100.
      now rewrite H1, H100. }
  intros d Hd.
  destruct (resolve_rules_outcome tz w dataset now_utc Hno)
    as [(d' & E & Hb & Hv) | [E | (_ & _ & E)]];
    rewrite E in Hd; [|discriminate|discriminate].
  injection Hd as <-. now split.
Qed.

End ResolverFacts.

(** ** The pipeline *)

Module PipelineFacts.
Import PyDate PyTime.

Section Handler.

Variable ALBERTA_TZ : ZoneInfo.
Variables RAW_BUCKET SNS_TOPIC_ARN MODEL_ID : string.
Variable sha256_hexdigest : bytes -> string.
Variable utf8_decode_replace : bytes -> string.
Variable json_dumps : json -> string.
Variable services : collaborators.

Local Abbreviation run_handler :=
  (handler ALBERTA_TZ RAW_BUCKET SNS_TOPIC_ARN MODEL_ID sha256_hexdigest
     utf8_decode_replace json_dumps services).

Lemma mbind_ok {A B : Type} (m : M A) (k : A -> M B) (w w' : process)
  (r : B) :
  mbind m k w = (Ok r, w') ->
  exists v w1, m w = (Ok v, w1) /\ k v w1 = (Ok r, w').
Proof.
  unfold mbind. destruct (m w) as [[v|e] w1]; [eauto | discriminate].
Qed.

Lemma invoke_ok {A : Type} (oracle : list call -> call -> result A)
  (c : call) (w w1 : process) (v : A) :
  invoke oracle c w = (Ok v, w1) ->
  oracle (calls w) c = Ok v /\ w1 = after w [c].
Proof. unfold invoke, after. intros [= H <-]. auto. Qed.

Lemma after_after (w : process) (l1 l2 : list call) :
  after (after w l1) l2 = after w (l1 ++ l2).
Proof. unfold after. simpl. now rewrite app_assoc. Qed.

Lemma http_get_after (url : string) (w : process) :
  snd (http_get services url w) = after w [HttpGet url].
Proof.
  unfold http_get, after. destruct (urlopen services (calls w) url);
    reflexivity.
Qed.

(** C8.  When the fetch of the built URL reports status 404, the handler
    returns the result with status not_ready, and the fetch is the only
    call it makes: nothing is stored, sent or deleted. *)
Theorem handler_not_ready (event : dict) (w : process) (dataset url : string)
  (day : date) (content : option bytes) :
  dict_get event "dataset" = Some dataset ->
  resolve_report_date ALBERTA_TZ w dataset None = Ok day ->
  build_url dataset day = Ok url ->
  fst (http_get services url w) = Ok (Some 404, content) ->
  exists res w',
    run_handler event w = (Ok res, w')
    /\ res = [("dataset", dataset); ("date", strftime day "%Y-%m-%d");
              ("status", "not_ready"); ("url", url)]
    /\ dict_get res "status" = Some "not_ready"
    /\ calls w' = calls w ++ [HttpGet url].
Proof.
  intros Hds Hday Hurl Hget.
  pose proof (http_get_after url w) as Hw.
  do 2 eexists. split; [|split; [reflexivity | split; [reflexivity|]]].
  - unfold handler, mbind, lift, dict_getitem.
    rewrite Hds, Hday, Hurl.
    destruct (http_get services url w) as [r w1]. simpl in Hget, Hw.
    subst r w1. cbn [status_eq]. change (404 =? 404) with true.
    cbv beta iota. unfold ret. reflexivity.
  - reflexivity.
Qed.


Lemma http_get_ok (url : string) (w w1 : process)
  (reply : option Z * option bytes) :
  http_get services url w = (Ok reply, w1) -> w1 = after w [HttpGet url].
Proof.
  intros H. pose proof (http_get_after url w) as Hw.
  rewrite H in Hw. exact Hw.
Qed.

(** The check of the stored copy makes one call and changes nothing
    else, whatever [body] and [handler] do with the reply. *)
Lemma head_check_ok (key sha : string) (w w1 : process) (u : unit) :
  try_except
    (mbind (invoke (s3_head_object services) (S3HeadObject RAW_BUCKET key))
       (fun head =>
          match dict_get head "sha256" with
          | Some stored => if String.eqb stored sha then ret tt else ret tt
          | None => ret tt
          end))
    (fun e =>
       match e with
       | ClientError code =>
           if negb (string_in code
                      ["404"; "NoSuchKey"; "NotFound"; "403"; "AccessDenied"])
           then raise e
           else ret tt
       | _ => raise e
       end) w = (Ok u, w1) ->
  w1 = after w [S3HeadObject RAW_BUCKET key].
Proof.
  unfold try_except, mbind, invoke, after, ret, raise.
  destruct (s3_head_object services (calls w) (S3HeadObject RAW_BUCKET key))
    as [head|e].
  - destruct (dict_get head "sha256") as [stored|];
      [destruct (String.eqb stored sha)|]; now intros [= _ <-].
  - destruct e; try discriminate.
    destruct (negb _); [discriminate | now intros [= _ <-]].
Qed.

(** C9, as amended.  An invocation that ends with status
    emailed_and_deleted has made exactly six calls: the fetch, the check
    and the write of the stored copy, the summary request, one
    notification and the delete.  The subject of the notification is
    "AER <DATASET> summary – <date>", with the dataset tag of the event and
    the resolved report date as YYYY-MM-DD. *)
Theorem handler_notification_subject (event res : dict) (w w' : process) :
  run_handler event w = (Ok res, w') ->
  dict_get res "status" = Some "emailed_and_deleted" ->
  exists dataset day url content body message,
    dict_get event "dataset" = Some dataset
    /\ resolve_report_date ALBERTA_TZ w dataset None = Ok day
    /\ build_url dataset day = Ok url
    /\ calls w'
       = calls w
         ++ [HttpGet url;
             S3HeadObject RAW_BUCKET (s3_key day dataset "txt");
             S3PutObject RAW_BUCKET (s3_key day dataset "txt") content
               "text/plain"
               [("source_url", url);
                ("sha256", sha256_hexdigest content);
                ("dataset", dataset)];
             BedrockInvokeModel MODEL_ID "application/json"
               "application/json" body;
             SnsPublish SNS_TOPIC_ARN
               ("AER " ++ dataset ++ " summary – "
                ++ strftime day "%Y-%m-%d")%string
               message;
             S3DeleteObject RAW_BUCKET (s3_key day dataset "txt")]
    /\ subjects_sent (skipn (List.length (calls w)) (calls w'))
       = [("AER " ++ dataset ++ " summary – "
           ++ strftime day "%Y-%m-%d")%string].
Proof.
  intros H Hstatus. unfold handler in H.
  apply mbind_ok in H as (dataset & w1 & H1 & H).
  unfold lift, dict_getitem in H1.
  destruct (dict_get event "dataset") as [ds|] eqn:Hds; [|discriminate].
  injection H1 as -> <-.
  apply mbind_ok in H as (day & w2 & H2 & H). injection H2 as Hday <-.
  apply mbind_ok in H as (url & w3 & H3 & H). injection H3 as Hurl <-.
  apply mbind_ok in H as ([status content] & w4 & H4 & H).
  apply http_get_ok in H4. subst w4.
  destruct (status_eq status 404).
  { injection H as <- _. discriminate Hstatus. }
  destruct (status_none_or_ge status 400); [discriminate|].
  destruct content as [content|]; [|discriminate].
  apply mbind_ok in H as (u5 & w5 & H5 & H).
  apply head_check_ok in H5. subst w5.
  apply mbind_ok in H as (u6 & w6 & H6 & H).
  apply invoke_ok in H6 as [_ ->].
  apply mbind_ok in H as (summary & w7 & H7 & H).
  unfold summarize_with_bedrock in H7.
  apply invoke_ok in H7 as [_ ->].
  apply mbind_ok in H as (u8 & w8 & H8 & H).
  unfold publish_sns in H8. apply invoke_ok in H8 as [_ ->].
  apply mbind_ok in H as (u9 & w9 & H9 & H).
  apply invoke_ok in H9 as [_ ->].
  injection H as _ <-.
  rewrite !after_after. cbn [app after calls].
  do 6 eexists.
  split; [reflexivity|]. split; [exact Hday|]. split; [exact Hurl|].
  split; [reflexivity|].
  rewrite skipn_app, skipn_all, Nat.sub_diag. reflexivity.
Qed.

End Handler.
End PipelineFacts.

(** ** The order of the business-day stepper *)

Module StepperOrder.
Import PyDate PyDateFacts StepperFacts.

(** The ordinal of the stepper's result. *)
Lemma stepper_ordinal (d : date) :
  1 <= toordinal d <= _MAXORDINAL ->
  exists d',
    previous_business_day d = Ok d'
    /\ toordinal d' = toordinal d - weekend_days (weekday d)
    /\ weekday d' = weekday d - weekend_days (weekday d).
Proof.
  intros Hr. pose proof (weekday_range d) as Hw. unfold weekend_days.
  assert (Hc : weekday d <= 4 \/ weekday d = 5 \/ weekday d = 6) by lia.
  destruct Hc as [Hc | [Hc | Hc]].
  - exists d. rewrite stepper_weekday by assumption. repeat split; lia.
  - exists (fromordinal (toordinal d - 1)).
    rewrite stepper_saturday by assumption.
    rewrite weekday_fromordinal, toordinal_fromordinal, Hc.
    split; [reflexivity|]. split; [lia|].
    unfold weekday in Hc. Z.div_mod_to_equations. lia.
  - exists (fromordinal (toordinal d - 2)).
    rewrite stepper_sunday by assumption.
    rewrite weekday_fromordinal, toordinal_fromordinal, Hc.
    split; [reflexivity|]. split; [lia|].
    unfold weekday in Hc. Z.div_mod_to_equations. lia.
Qed.

(** X1.  The stepper returns the latest date that falls on Monday to
    Friday and is not after its argument: it is not after the argument, it
    is a business day, and every business day that is not after the
    argument is not after it. *)
Theorem previous_business_day_latest (d : date) :
  valid_date d ->
  exists d',
    previous_business_day d = Ok d'
    /\ toordinal d' <= toordinal d
    /\ is_business_day d'
    /\ forall e, is_business_day e -> toordinal e <= toordinal d ->
                 toordinal e <= toordinal d'.
Proof.
  intros Hv. pose proof (valid_toordinal d Hv) as Hr.
  destruct (stepper_ordinal d Hr) as (d' & Hd & Ho & Hwd).
  pose proof (weekday_range d) as Hw.
  exists d'. split; [exact Hd|]. unfold is_business_day, weekend_days in *.
  split; [lia|]. split; [lia|].
  intros e He Hle. unfold weekday in *. Z.div_mod_to_equations. lia.
Qed.

(** X2.  The stepper is monotone: a later date is never sent to an
    earlier business day. *)
Theorem previous_business_day_monotone (d1 d2 : date) :
  valid_date d1 -> valid_date d2 -> toordinal d1 <= toordinal d2 ->
  exists r1 r2,
    previous_business_day d1 = Ok r1 /\ previous_business_day d2 = Ok r2
    /\ toordinal r1 <= toordinal r2.
Proof.
  intros H1 H2 Hle.
  destruct (stepper_ordinal d1 (valid_toordinal d1 H1)) as (r1 & E1 & O1 & _).
  destruct (stepper_ordinal d2 (valid_toordinal d2 H2)) as (r2 & E2 & O2 & _).
  exists r1, r2. split; [exact E1|]. split; [exact E2|].
  rewrite O1, O2. unfold weekend_days, weekday.
  Z.div_mod_to_equations. lia.
Qed.

End StepperOrder.

(** ** Bounds on the resolved date *)

Module ResolverBounds.
Import PyDate PyTime PyDateFacts StepperFacts ResolverFacts StepperOrder.

(** The ordinal of the date the rules give. *)
Lemma resolve_ordinal (tz : ZoneInfo) (w : process) (dataset : string)
  (now_utc : option datetime) (now_ab : datetime) :
  no_override w ->
  astimezone (instant_of w now_utc) tz = Ok now_ab ->
  known_dataset dataset ->
  let base :=
    toordinal (dt_date now_ab) - Z.b2z (starts_yesterday dataset now_ab) in
  1 <= toordinal (dt_date now_ab) <= _MAXORDINAL
  /\ (1 <= base ->
      exists d,
        resolve_report_date tz w dataset now_utc = Ok d
        /\ toordinal d = base - weekend_days ((base + 6) mod 7))
  /\ (base < 1 ->
      resolve_report_date tz w dataset now_utc
      = Err (OverflowError "result out of range")).
Proof.
  intros Hno Hab Hk base.
  assert (Hr : 1 <= toordinal (dt_date now_ab) <= _MAXORDINAL).
  { destruct (astimezone_cases (instant_of w now_utc) tz)
      as [(x & Hx & Hr & _) | Hx]; rewrite Hab in Hx; [|discriminate].
    injection Hx as <-. exact Hr. }
  split; [exact Hr|].
  assert (Htoday : forall day, 1 <= toordinal day <= _MAXORDINAL ->
            exists d, previous_business_day day = Ok d
                      /\ toordinal d
                         = toordinal day
                           - weekend_days ((toordinal day + 6) mod 7)).
  { intros day Hd. destruct (stepper_ordinal day Hd) as (d & E & O & _).
    exists d. split; [exact E | exact O]. }
  assert (Hyes : forall day, 1 <= toordinal day <= _MAXORDINAL ->
            (1 <= toordinal day - 1 ->
             exists d, bind (sub_days day 1) previous_business_day = Ok d
                       /\ toordinal d
                          = toordinal day - 1
                            - weekend_days ((toordinal day - 1 + 6) mod 7))
            /\ (toordinal day - 1 < 1 ->
                bind (sub_days day 1) previous_business_day
                = Err (OverflowError "result out of range"))).
  { intros day Hd. split; intros Hb.
    - rewrite sub_days_in_range by lia. cbn [bind].
      destruct (Htoday (fromordinal (toordinal day - 1))) as (d & E & O);
        [rewrite toordinal_fromordinal; lia|].
      rewrite toordinal_fromordinal in O. eauto.
    - destruct (sub_days day 1) as [y|e] eqn:Hs.
      + apply sub_days_inv in Hs. lia.
      + apply sub_days_err in Hs. now subst e. }
  rewrite (resolve_rules tz w dataset now_utc Hno), Hab. cbn [bind].
  cbv zeta. subst base. unfold starts_yesterday.
  destruct Hk as [-> | ->].
  - change (String.eqb "ST1" "ST1") with true. cbv iota.
    destruct (hour now_ab <? 10); cbn [Z.b2z].
    + apply Hyes, Hr.
    + rewrite Z.sub_0_r. split; [intros _; apply Htoday, Hr | lia].
  - change (String.eqb "ST100" "ST1") with false.
    change (String.eqb "ST100" "ST100") with true. cbv iota.
    rewrite (Z.ltb_antisym (weekday (dt_date now_ab)) 4).
    destruct (weekday (dt_date now_ab) <=? 4); cbn [negb andb Z.b2z].
    + destruct (hour now_ab <? 21); cbn [Z.b2z].
      * apply Hyes, Hr.
      * rewrite Z.sub_0_r. split; [intros _; apply Htoday, Hr | lia].
    + rewrite Z.sub_0_r. split; [intros _; apply Htoday, Hr | lia].
Qed.

Lemma known_or_rejected (tz : ZoneInfo) (w : process) (dataset : string)
  (now_utc : option datetime) (d : date) :
  no_override w ->
  resolve_report_date tz w dataset now_utc = Ok d -> known_dataset dataset.
Proof.
  intros Hno H. unfold known_dataset.
  destruct (String.eqb_spec dataset "ST1") as [|N1]; [now left|].
  destruct (String.eqb_spec dataset "ST100") as [|N2]; [now right|].
  rewrite (resolve_rules tz w dataset now_utc Hno) in H.
  apply String.eqb_neq in N1, N2. rewrite N1, N2 in H.
  destruct (astimezone _ tz); discriminate.
Qed.

(** X3.  With no override, the date the resolver returns is never after
    the publisher-local date and at most three days before it. *)
Theorem resolve_report_date_lag (tz : ZoneInfo) (w : process)
  (dataset : string) (now_utc : option datetime) (now_ab : datetime)
  (d : date) :
  no_override w ->
  astimezone (instant_of w now_utc) tz = Ok now_ab ->
  resolve_report_date tz w dataset now_utc = Ok d ->
  toordinal (dt_date now_ab) - 3 <= toordinal d <= toordinal (dt_date now_ab).
Proof.
  intros Hno Hab H.
  pose proof (known_or_rejected tz w dataset now_utc d Hno H) as Hk.
  destruct (resolve_ordinal tz w dataset now_utc now_ab Hno Hab Hk)
    as (Hr & Hok & Herr).
  set (base := toordinal (dt_date now_ab)
               - Z.b2z (starts_yesterday dataset now_ab)) in *.
  assert (Hb : 0 <= Z.b2z (starts_yesterday dataset now_ab) <= 1)
    by (destruct (starts_yesterday dataset now_ab); simpl; lia).
  destruct (Z.lt_ge_cases base 1) as [Hlt | Hge].
  - rewrite (Herr Hlt) in H. discriminate.
  - destruct (Hok Hge) as (d' & E & O). rewrite E in H. injection H as <-.
    rewrite O. unfold weekend_days.
    assert (Hm : 0 <= (base + 6) mod 7 < 7) by (apply Z.mod_pos_bound; lia).
    subst base. lia.
Qed.

(** X4.  With no override, on a publisher-local Saturday or Sunday both
    datasets resolve to the Friday before, whatever the hour. *)
Theorem resolve_report_date_weekend (tz : ZoneInfo) (w : process)
  (dataset : string) (now_utc : option datetime) (now_ab : datetime) :
  no_override w ->
  astimezone (instant_of w now_utc) tz = Ok now_ab ->
  known_dataset dataset ->
  4 < weekday (dt_date now_ab) ->
  exists d,
    resolve_report_date tz w dataset now_utc = Ok d
    /\ weekday d = 4
    /\ toordinal d
       = toordinal (dt_date now_ab) - (weekday (dt_date now_ab) - 4).
Proof.
  intros Hno Hab Hk Hwd.
  destruct (resolve_ordinal tz w dataset now_utc now_ab Hno Hab Hk)
    as (Hr & Hok & _).
  pose proof (weekday_range (dt_date now_ab)) as Hw.
  set (base := toordinal (dt_date now_ab)
               - Z.b2z (starts_yesterday dataset now_ab)) in *.
  assert (Hb : 0 <= Z.b2z (starts_yesterday dataset now_ab) <= 1)
    by (destruct (starts_yesterday dataset now_ab); simpl; lia).
  assert (Hge : 1 <= base)
    by (subst base; unfold weekday in *; Z.div_mod_to_equations; lia).
  destruct (Hok Hge) as (d & E & O).
  exists d. split; [exact E|].
  unfold weekday in *. rewrite O. unfold weekend_days. subst base.
  split; Z.div_mod_to_equations; lia.
Qed.

(** X5.  With no override, the resolver returns the publisher-local date
    itself exactly when that date falls on Monday to Friday and the local
    hour has reached the dataset's cutoff: 10 for ST1, 21 for ST100. *)
Theorem resolve_report_date_today (tz : ZoneInfo) (w : process)
  (dataset : string) (now_utc : option datetime) (now_ab : datetime) :
  no_override w ->
  astimezone (instant_of w now_utc) tz = Ok now_ab ->
  known_dataset dataset ->
  resolve_report_date tz w dataset now_utc = Ok (dt_date now_ab)
  <-> is_business_day (dt_date now_ab) /\ cutoff_hour dataset <= hour now_ab.
Proof.
  intros Hno Hab Hk.
  pose proof (weekday_range (dt_date now_ab)) as Hw.
  unfold is_business_day. split.
  - intros H.
    destruct (resolve_ordinal tz w dataset now_utc now_ab Hno Hab Hk)
      as (Hr & Hok & Herr).
    set (base := toordinal (dt_date now_ab)
                 - Z.b2z (starts_yesterday dataset now_ab)) in *.
    destruct (Z.lt_ge_cases base 1) as [Hlt | Hge].
    { rewrite (Herr Hlt) in H. discriminate. }
    destruct (Hok Hge) as (d & E & O). rewrite E in H. injection H as ->.
    assert (Hm : 0 <= (base + 6) mod 7 < 7) by (apply Z.mod_pos_bound; lia).
    unfold weekend_days in O.
    assert (Hy : starts_yesterday dataset now_ab = false).
    { destruct (starts_yesterday dataset now_ab); [|reflexivity].
      subst base. cbn [Z.b2z] in *. lia. }
    subst base. rewrite Hy in *. cbn [Z.b2z] in *.
    rewrite Z.sub_0_r in O.
    assert (Hwd : weekday (dt_date now_ab) <= 4) by (unfold weekday; lia).
    split; [lia|].
    unfold starts_yesterday, cutoff_hour in *.
    destruct (String.eqb dataset "ST1").
    + now apply Z.ltb_ge in Hy.
    + apply andb_false_iff in Hy as [Hy | Hy];
        [apply Z.leb_gt in Hy; lia | now apply Z.ltb_ge in Hy].
  - intros [Hwd Hh].
    rewrite (resolve_rules tz w dataset now_utc Hno), Hab. cbn [bind].
    cbv zeta. unfold cutoff_hour in Hh.
    assert (Hstep : previous_business_day (dt_date now_ab)
                    = Ok (dt_date now_ab))
      by (apply stepper_weekday; lia).
    destruct Hk as [-> | ->].
    + change (String.eqb "ST1" "ST1") with true in *. cbv iota in *.
      apply Z.ltb_ge in Hh. now rewrite Hh.
    + change (String.eqb "ST100" "ST1") with false in *.
      change (String.eqb "ST100" "ST100") with true. cbv iota in *.
      apply Z.ltb_ge in Hh. rewrite Hh.
      now destruct (4 <? weekday (dt_date now_ab)).
Qed.

End ResolverBounds.

(** ** The URL and the storage key *)

Module LocatorFacts.
Import PyDate PyTime PyDateFacts PyTimeFacts.

Lemma zero_pad2_inj (a b : Z) :
  0 <= a <= 99 -> 0 <= b <= 99 -> zero_pad2 a = zero_pad2 b -> a = b.
Proof.
  intros Ha Hb E.
  pose proof (int_zero_pad2 a Ha) as Ia. rewrite E, int_zero_pad2 in Ia by lia.
  congruence.
Qed.

Lemma zero_pad4_inj (a b : Z) :
  0 <= a <= 9999 -> 0 <= b <= 9999 -> zero_pad4 a = zero_pad4 b -> a = b.
Proof.
  intros Ha Hb E.
  pose proof (int_zero_pad4 a Ha) as Ia. rewrite E, int_zero_pad4 in Ia by lia.
  congruence.
Qed.

Lemma zero_pad2_split (a b : Z) (s t : string) :
  (zero_pad2 a ++ s)%string = (zero_pad2 b ++ t)%string ->
  zero_pad2 a = zero_pad2 b /\ s = t.
Proof. unfold zero_pad2. cbn [append]. intros [= -> -> ->]. auto. Qed.

Lemma zero_pad4_split (a b : Z) (s t : string) :
  (zero_pad4 a ++ s)%string = (zero_pad4 b ++ t)%string ->
  zero_pad4 a = zero_pad4 b /\ s = t.
Proof.
  unfold zero_pad4, zero_pad2. cbn [append]. intros [= -> -> -> -> ->]. auto.
Qed.

Lemma append_inv_head (p s t : string) :
  (p ++ s)%string = (p ++ t)%string -> s = t.
Proof. induction p as [|c p IH]; cbn [append]; [auto | intros [= H]; auto]. Qed.

Lemma valid_date_fields (d : date) :
  valid_date d ->
  0 <= date_year d <= 9999 /\ 0 <= date_month d <= 99
  /\ 0 <= date_day d <= 99.
Proof.
  intros Hv. apply valid_date_iff in Hv. destruct Hv as (Hy & Hm & Hd).
  pose proof (days_in_month_le_31 (date_year d) _ Hm).
  unfold MINYEAR, MAXYEAR in *. lia.
Qed.

Lemma strftime_mmdd (d : date) :
  strftime d "%m%d" = (zero_pad2 (date_month d) ++ zero_pad2 (date_day d))%string.
Proof. reflexivity. Qed.

Lemma build_url_cases (dataset : string) (day : date) (url : string) :
  build_url dataset day = Ok url ->
  (dataset = "ST1"
   /\ url = ("https://static.aer.ca/data/well-lic/WELLS"
             ++ zero_pad2 (date_month day) ++ zero_pad2 (date_day day)
             ++ ".txt")%string)
  \/ (dataset = "ST100"
      /\ url = ("https://static.aer.ca/prd/data/pipeconst/PIPE"
                ++ zero_pad2 (date_month day) ++ zero_pad2 (date_day day)
                ++ ".txt")%string).
Proof.
  unfold build_url.
  destruct (String.eqb_spec dataset "ST1") as [-> | _].
  - intros [= <-]. left. split; reflexivity.
  - destruct (String.eqb_spec dataset "ST100") as [-> | _]; [|discriminate].
    intros [= <-]. right. split; reflexivity.
Qed.

(** X6.  The URL encodes the dataset, the month and the day, and nothing
    of the year: two requests get the same URL exactly when they agree on
    the dataset tag, the month and the day. *)
Theorem build_url_same (dataset1 dataset2 : string) (day1 day2 : date)
  (url : string) :
  valid_date day1 -> valid_date day2 ->
  build_url dataset1 day1 = Ok url ->
  build_url dataset2 day2 = Ok url
  <-> dataset1 = dataset2 /\ date_month day1 = date_month day2
      /\ date_day day1 = date_day day2.
Proof.
  intros V1 V2 H1.
  apply valid_date_fields in V1, V2.
  split.
  - intros H2.
    apply build_url_cases in H1, H2.
    destruct H1 as [[-> E1] | [-> E1]], H2 as [[-> E2] | [-> E2]];
      rewrite E1 in E2; try discriminate E2;
      apply append_inv_head in E2;
      apply zero_pad2_split in E2 as [Em E2];
      apply zero_pad2_split in E2 as [Ed _];
      apply zero_pad2_inj in Em, Ed; try lia; auto.
  - intros (<- & Em & Ed). rewrite <- H1. unfold build_url.
    now rewrite !strftime_mmdd, Em, Ed.
Qed.

Lemma append_inv_tail (p q t : string) :
  (p ++ t)%string = (q ++ t)%string -> p = q.
Proof.
  revert q. induction p as [|c p IH]; intros [|c' q] H; cbn [append] in H.
  - reflexivity.
  - apply (f_equal String.length) in H. cbn [String.length] in H.
    rewrite length_append in H. lia.
  - apply (f_equal String.length) in H. cbn [String.length] in H.
    rewrite length_append in H. lia.
  - injection H as -> H. f_equal. now apply IH.
Qed.

Lemma s3_key_parts (day : date) (dataset ext : string) :
  s3_key day dataset ext
  = (zero_pad4 (date_year day) ++ "/" ++ zero_pad2 (date_month day) ++ "/"
     ++ zero_pad2 (date_day day) ++ "/"
     ++ (lower dataset
         ++ "_" ++ zero_pad4 (date_year day) ++ zero_pad2 (date_month day)
         ++ zero_pad2 (date_day day) ++ "." ++ ext))%string.
Proof. reflexivity. Qed.

(** X7.  Storage keys of different civil dates are different, whatever
    the dataset tags and extensions; for one date and one extension, two
    tags get the same key exactly when they are equal up to the case of
    their letters. *)
Theorem s3_key_same (day1 day2 : date) (dataset1 dataset2 ext1 ext2 : string) :
  valid_date day1 -> valid_date day2 ->
  (s3_key day1 dataset1 ext1 = s3_key day2 dataset2 ext2 -> day1 = day2)
  /\ (s3_key day1 dataset1 ext1 = s3_key day1 dataset2 ext1
      <-> lower dataset1 = lower dataset2).
Proof.
  intros V1 V2. split.
  - intros H. rewrite !s3_key_parts in H.
    apply valid_date_fields in V1, V2.
    apply zero_pad4_split in H as [Ey H].
    apply (append_inv_head "/") in H.
    apply zero_pad2_split in H as [Em H].
    apply (append_inv_head "/") in H.
    apply zero_pad2_split in H as [Ed _].
    apply zero_pad4_inj in Ey; [|lia|lia].
    apply zero_pad2_inj in Em, Ed; try lia.
    destruct day1, day2. simpl in *. congruence.
  - rewrite !s3_key_parts. split.
    + intros H.
      do 6 apply append_inv_head in H.
      now apply append_inv_tail in H.
    + now intros ->.
Qed.

End LocatorFacts.

(** ** Runs of the handler *)

Module HandlerRuns.
Import PyDate PyTime PipelineFacts.

Lemma splits_spec {A : Type} (l pre post : list A) (c : A) :
  l = pre ++ c :: post -> In (pre, c, post) (splits l).
Proof.
  revert l. induction pre as [|p pre IH]; intros l ->; cbn [app splits].
  - now left.
  - right. apply (in_map (fun '(pre, c, post) => (p :: pre, c, post))
                    _ (pre, c, post)).
    now apply IH.
Qed.

Lemma invoke_run {A : Type} (oracle : list call -> call -> result A)
  (c : call) (w p : process) (r : result A) :
  invoke oracle c w = (r, p) -> oracle (calls w) c = r /\ p = after w [c].
Proof. unfold invoke, after. now intros [= <- <-]. Qed.

Lemma after_nil (w : process) : after w [] = w.
Proof. unfold after. destruct w; cbn. now rewrite app_nil_r. Qed.

Lemma calls_after (w : process) (made : list call) :
  calls (after w made) = calls w ++ made.
Proof. reflexivity. Qed.

Section Handler.

Variable ALBERTA_TZ : ZoneInfo.
Variables RAW_BUCKET SNS_TOPIC_ARN MODEL_ID : string.
Variable sha256_hexdigest : bytes -> string.
Variable utf8_decode_replace : bytes -> string.
Variable json_dumps : json -> string.
Variable services : collaborators.

Local Abbreviation run_handler :=
  (handler ALBERTA_TZ RAW_BUCKET SNS_TOPIC_ARN MODEL_ID sha256_hexdigest
     utf8_decode_replace json_dumps services).

Lemma http_get_run (url : string) (w p : process)
  (r : result (option Z * option bytes)) :
  http_get services url w = (r, p) ->
  p = after w [HttpGet url]
  /\ r = match urlopen services (calls w) url with
         | Response status data => Ok (status, Some data)
         | HTTPError code => Ok (Some code, None)
         | Raises e => Err e
         end.
Proof.
  unfold http_get, after. destruct (urlopen services (calls w) url);
    now intros [= <- <-].
Qed.

Lemma summarize_run (day : date) (items : list item) (w p : process)
  (r : result string) :
  summarize_with_bedrock MODEL_ID json_dumps services day items w = (r, p) ->
  exists body,
    bedrock_invoke_model services (calls w)
      (BedrockInvokeModel MODEL_ID "application/json" "application/json" body)
    = r
    /\ p = after w [BedrockInvokeModel MODEL_ID "application/json"
                      "application/json" body].
Proof.
  unfold summarize_with_bedrock. intros H. apply invoke_run in H.
  eexists. exact H.
Qed.

Lemma publish_run (subject message : string) (w p : process)
  (r : result unit) :
  publish_sns SNS_TOPIC_ARN services subject message w = (r, p) ->
  sns_publish services (calls w) (SnsPublish SNS_TOPIC_ARN subject message) = r
  /\ p = after w [SnsPublish SNS_TOPIC_ARN subject message].
Proof. unfold publish_sns. apply invoke_run. Qed.

(** Case analysis of a run of the handler: one goal for each way through
    it, with the reply that decided each step as a hypothesis. *)
Ltac step H :=
  match type of H with
  | context [match ?x with _ => _ end] =>
      lazymatch x with
      | context [match _ with _ => _ end] => fail
      | _ => destruct x eqn:?
      end
  end.

Ltac explain_calls :=
  repeat match goal with
    | E : invoke _ _ _ = (_, _) |- _ =>
        apply invoke_run in E; destruct E as [? ->]
    | E : http_get _ ?url ?w = (_, _) |- _ =>
        let G := fresh "Hget" in
        apply http_get_run in E; destruct E as [-> G];
        destruct (urlopen services (calls w) url) eqn:?;
        try discriminate G;
        first [injection G as -> -> | injection G as -> | idtac]
    | E : summarize_with_bedrock _ _ _ _ _ _ = (_, _) |- _ =>
        apply summarize_run in E; destruct E as (? & ? & ->)
    | E : publish_sns _ _ _ _ _ = (_, _) |- _ =>
        apply publish_run in E; destruct E as [? ->]
    end;
  rewrite ?after_after, ?calls_after in *;
  repeat first [rewrite <- app_comm_cons in * | rewrite app_nil_l in *].

Ltac handler_cases H :=
  unfold handler, mbind, lift, ret, raise, try_except, dict_getitem in H;
  repeat step H;
  injection H as <- <-;
  explain_calls.

(** X8.  Whatever happens, the handler only adds calls to those already
    made, leaves the environment and the clock as they were, and makes
    its calls in the order fetch, check, store, summarise, notify, delete:
    each at most once and none before the ones that precede it. *)
Theorem handler_call_order (event : dict) (w w' : process) (r : result dict) :
  run_handler event w = (r, w') ->
  exists made,
    w' = after w made /\ prefix_of (map stage_of made) pipeline_stages.
Proof.
  intros H.
  handler_cases H;
    try (exists []; split;
         [symmetry; apply after_nil | eexists; reflexivity]);
    (eexists; split; [reflexivity | eexists; reflexivity]).
Qed.

(** X9.  The handler rejects an event before any call is made when the
    event has no dataset field ([KeyError]) or names a dataset other than
    ST1 and ST100, whatever the override. *)
Theorem handler_rejects_dataset (event : dict) (w : process) :
  (dict_get event "dataset" = None ->
   run_handler event w = (Err (KeyError "dataset"), w))
  /\ (forall dataset,
        dict_get event "dataset" = Some dataset ->
        ~ known_dataset dataset ->
        exists e, run_handler event w = (Err e, w)).
Proof.
  unfold handler, mbind, lift, dict_getitem. split.
  - intros ->. reflexivity.
  - intros dataset -> Hk.
    destruct (resolve_report_date ALBERTA_TZ w dataset None) as [day|e];
      [|eauto].
    unfold build_url.
    destruct (String.eqb_spec dataset "ST1") as [E|_];
      [exfalso; apply Hk; now left|].
    destruct (String.eqb_spec dataset "ST100") as [E|_];
      [exfalso; apply Hk; now right|].
    eauto.
Qed.

(** X10.  A failed fetch ends the invocation after the fetch: what
    [urlopen] raises other than an [HTTPError] is raised unchanged, and a
    status that is missing, or is 400 or more and not 404, raises a
    [RuntimeError] that names the URL and the status. *)
Theorem handler_fetch_failure (event : dict) (w : process)
  (dataset url : string) (day : date) :
  dict_get event "dataset" = Some dataset ->
  resolve_report_date ALBERTA_TZ w dataset None = Ok day ->
  build_url dataset day = Ok url ->
  (forall e,
     urlopen services (calls w) url = Raises e ->
     run_handler event w = (Err e, after w [HttpGet url]))
  /\ (forall status content,
        fst (http_get services url w) = Ok (status, content) ->
        status_eq status 404 = false ->
        status_none_or_ge status 400 = true ->
        run_handler event w
        = (Err (RuntimeError ("Failed to download " ++ url ++ ": status="
                              ++ str_of_status status)%string),
           after w [HttpGet url])).
Proof.
  intros Hds Hday Hurl.
  unfold handler, mbind, lift, dict_getitem. rewrite Hds, Hday, Hurl.
  split.
  - intros e He. unfold http_get. rewrite He. reflexivity.
  - intros status content Hget H404 H400.
    destruct (http_get services url w) as [r p] eqn:E.
    apply http_get_run in E as [-> _]. cbn [fst] in Hget. subst r.
    rewrite H404, H400. reflexivity.
Qed.

(** X11.  An [HTTPError] with a code below 400 is not reported as a
    failed download: [http_get] returns the code without a body, the
    status tests let it through, and the invocation ends with the
    [TypeError] of hashing a missing body, after the fetch and before
    anything is stored or sent. *)
Theorem handler_http_error_below_400 (event : dict) (w : process)
  (dataset url : string) (day : date) (code : Z) :
  dict_get event "dataset" = Some dataset ->
  resolve_report_date ALBERTA_TZ w dataset None = Ok day ->
  build_url dataset day = Ok url ->
  urlopen services (calls w) url = HTTPError code ->
  code < 400 ->
  exists msg,
    run_handler event w = (Err (TypeError msg), after w [HttpGet url]).
Proof.
  intros Hds Hday Hurl Hget Hcode.
  unfold handler, mbind, lift, dict_getitem. rewrite Hds, Hday, Hurl.
  unfold http_get. rewrite Hget. cbn [status_eq status_none_or_ge].
  destruct (Z.eqb_spec code 404) as [E|_]; [lia|].
  destruct (Z.leb_spec 400 code) as [E|_]; [lia|].
  eexists. reflexivity.
Qed.

Lemma no_split_of_nil {A : Type} (l pre post : list A) (c : A) :
  l = l ++ pre ++ c :: post -> False.
Proof.
  intros H. apply (f_equal (@List.length A)) in H.
  rewrite !length_app in H. cbn [List.length] in H. lia.
Qed.

(** X12.  The first collaborator call that fails ends the invocation with
    its exception, and no call follows it: after a failed write, summary
    request or notification nothing is cleaned up, and the stored object
    is not deleted. *)
Theorem handler_fail_fast (event : dict) (w w' : process) (r : result dict)
  (pre post : list call) (c : call) (e : exception) :
  run_handler event w = (r, w') ->
  calls w' = calls w ++ pre ++ c :: post ->
  failure services (calls w ++ pre) c = Some e ->
  r = Err e /\ post = [].
Proof.
  intros H Hc Hf.
  handler_cases H;
    try (now apply no_split_of_nil in Hc);
    apply app_inv_head, splits_spec in Hc; cbv [splits map In] in Hc;
    repeat (destruct Hc as [Hc | Hc];
            [apply pair_equal_spec in Hc as [Hc <-];
             apply pair_equal_spec in Hc as [<- <-] |]);
    try contradiction;
    cbv [failure] in Hf; rewrite ?app_nil_r in Hf;
    repeat match goal with
      | E : ?lhs = _ |- _ =>
          lazymatch E with Hf => fail | _ => idtac end;
          match type of Hf with context [lhs] => rewrite E in Hf end
      end;
    repeat match goal with
      | E : negb ?b = _ |- _ =>
          first [apply (proj1 (negb_true_iff _)) in E
                | apply (proj1 (negb_false_iff _)) in E];
          rewrite E in Hf
      end;
    try discriminate Hf;
    injection Hf as <-; split; reflexivity.
Qed.

Lemma Ok_inj {A : Type} (a b : A) : Ok a = Ok b -> a = b.
Proof. now intros [= H]. Qed.

Lemma status_eq_true (status : option Z) (n : Z) :
  status_eq status n = true -> status = Some n.
Proof.
  destruct status as [s|]; simpl; [|discriminate].
  intros H. apply Z.eqb_eq in H. now subst.
Qed.

Lemma status_below (status : option Z) (n : Z) :
  status_none_or_ge status n = false ->
  exists code, status = Some code /\ code < n.
Proof.
  destruct status as [s|]; simpl; [|discriminate].
  intros H. apply Z.leb_gt in H. eauto.
Qed.

(** X13.  The handler returns a result in two cases only.  Status
    not_ready means that the fetch reported 404, and then the fetch is the
    only call made.  Status emailed_and_deleted means that the fetch gave
    a body with a status below 400, and then six calls were made.  In
    both cases the result carries the dataset tag of the event, the
    resolved report date as YYYY-MM-DD and the URL that was fetched. *)
Theorem handler_result (event res : dict) (w w' : process) :
  run_handler event w = (Ok res, w') ->
  exists dataset day url status content,
    dict_get event "dataset" = Some dataset
    /\ resolve_report_date ALBERTA_TZ w dataset None = Ok day
    /\ build_url dataset day = Ok url
    /\ fst (http_get services url w) = Ok (status, content)
    /\ ((status = Some 404
         /\ res = [("dataset", dataset); ("date", strftime day "%Y-%m-%d");
                   ("status", "not_ready"); ("url", url)]
         /\ w' = after w [HttpGet url])
        \/ (exists code data made,
              status = Some code /\ code < 400 /\ code <> 404
              /\ content = Some data
              /\ res = [("dataset", dataset);
                        ("date", strftime day "%Y-%m-%d");
                        ("status", "emailed_and_deleted"); ("url", url)]
              /\ w' = after w made /\ List.length made = 6%nat)).
Proof.
  intros H. remember (Ok res) as r eqn:Hr in H.
  handler_cases H; try discriminate Hr; apply Ok_inj in Hr; subst res;
    match goal with
    | Hd : dict_get event "dataset" = Some ?ds,
      Hy : resolve_report_date _ _ _ _ = Ok ?day,
      Hu : build_url _ _ = Ok ?url,
      Hg : urlopen services (calls w) _ = _ |- _ =>
        exists ds, day, url;
        do 2 eexists;
        split; [reflexivity|]; split; [exact Hy|]; split; [exact Hu|];
        split; [unfold http_get; rewrite Hg; reflexivity|]
    end;
    match goal with
    | Hs : status_eq _ 404 = true |- _ =>
        left; apply status_eq_true in Hs;
        split; [exact Hs|]; split; reflexivity
    | Hs : status_eq ?st 404 = false, Hb : status_none_or_ge _ 400 = false
      |- _ =>
        let sc := fresh "sc" in
        right; apply status_below in Hb as (sc & -> & Hlt);
        exists sc; do 2 eexists;
        split; [reflexivity|]; split; [exact Hlt|];
        split; [intros ->; simpl in Hs; discriminate|];
        split; [reflexivity|]; split; [reflexivity|];
        split; reflexivity
    end.
Qed.

(** X14.  An invocation that ends with status emailed_and_deleted made
    these six calls and no other: the fetch of the URL; the check and
    the write of one object, whose key is the key of the resolved date
    and dataset, whose body is the body the fetch returned and whose
    metadata carry the checksum of that body; the summary request; the
    notification; and last the deletion of that same object. *)
Theorem handler_delivery (event res : dict) (w w' : process) :
  run_handler event w = (Ok res, w') ->
  dict_get res "status" = Some "emailed_and_deleted" ->
  exists dataset day url status data request notice,
    dict_get event "dataset" = Some dataset
    /\ resolve_report_date ALBERTA_TZ w dataset None = Ok day
    /\ build_url dataset day = Ok url
    /\ urlopen services (calls w) url = Response status data
    /\ stage_of request = Summarise /\ stage_of notice = Notify
    /\ w' = after w
              [HttpGet url;
               S3HeadObject RAW_BUCKET (s3_key day dataset "txt");
               S3PutObject RAW_BUCKET (s3_key day dataset "txt") data
                 "text/plain"
                 [("source_url", url); ("sha256", sha256_hexdigest data);
                  ("dataset", dataset)];
               request; notice;
               S3DeleteObject RAW_BUCKET (s3_key day dataset "txt")].
Proof.
  intros H Hs. remember (Ok res) as r eqn:Hr in H.
  handler_cases H; try discriminate Hr; apply Ok_inj in Hr; subst res;
    try discriminate Hs;
    match goal with
    | Hd : dict_get event "dataset" = Some ?ds,
      Hy : resolve_report_date _ _ _ _ = Ok ?day,
      Hu : build_url _ _ = Ok ?url,
      Hg : urlopen services (calls w) _ = _ |- _ =>
        exists ds, day, url;
        do 4 eexists;
        split; [reflexivity|]; split; [exact Hy|]; split; [exact Hu|];
        split; [exact Hg|];
        split; [|split; [|reflexivity]]; reflexivity
    end.
Qed.

End Handler.

Lemma mbind_congr {A B : Type} (m1 m2 : M A) (k1 k2 : A -> M B)
  (w : process) :
  m1 w = m2 w ->
  (forall v w1, m2 w = (Ok v, w1) -> k1 v w1 = k2 v w1) ->
  mbind m1 k1 w = mbind m2 k2 w.
Proof.
  intros Hm Hk. unfold mbind. rewrite Hm.
  destruct (m2 w) as [[v|e] w1]; [now apply Hk | reflexivity].
Qed.

(** With a reply the handler passes over, the check of the stored copy
    makes its call and nothing else. *)
Lemma head_check_passes (services : collaborators)
  (RAW_BUCKET key sha : string) (w : process) :
  passes_check
    (s3_head_object services (calls w) (S3HeadObject RAW_BUCKET key)) = true ->
  try_except
    (mbind (invoke (s3_head_object services) (S3HeadObject RAW_BUCKET key))
       (fun head =>
          match dict_get head "sha256" with
          | Some stored => if String.eqb stored sha then ret tt else ret tt
          | None => ret tt
          end))
    (fun e =>
       match e with
       | ClientError code =>
           if negb (string_in code
                      ["404"; "NoSuchKey"; "NotFound"; "403"; "AccessDenied"])
           then raise e
           else ret tt
       | _ => raise e
       end) w
  = (Ok tt, after w [S3HeadObject RAW_BUCKET key]).
Proof.
  unfold try_except, mbind, invoke, after, ret, raise, passes_check.
  destruct (s3_head_object services (calls w) (S3HeadObject RAW_BUCKET key))
    as [head|e].
  - intros _. destruct (dict_get head "sha256") as [stored|];
      [destruct (String.eqb stored sha)|]; reflexivity.
  - destruct e; try discriminate. intros ->. reflexivity.
Qed.

(** X15.  The check of the stored copy decides nothing: as long as its
    reply is one the handler passes over (a head, or a [ClientError] with
    one of the five listed codes), the object is written again and the
    invocation ends the same way, with the same calls, whatever the
    reply says about the stored checksum. *)
Theorem handler_check_decides_nothing (ALBERTA_TZ : ZoneInfo)
  (RAW_BUCKET SNS_TOPIC_ARN MODEL_ID : string)
  (sha256_hexdigest utf8_decode_replace : bytes -> string)
  (json_dumps : json -> string) (services : collaborators)
  (head : list call -> call -> result dict) (event : dict) (w : process) :
  (forall history c, passes_check (head history c) = true) ->
  (forall history c,
     passes_check (s3_head_object services history c) = true) ->
  handler ALBERTA_TZ RAW_BUCKET SNS_TOPIC_ARN MODEL_ID sha256_hexdigest
    utf8_decode_replace json_dumps (with_head_object services head) event w
  = handler ALBERTA_TZ RAW_BUCKET SNS_TOPIC_ARN MODEL_ID sha256_hexdigest
      utf8_decode_replace json_dumps services event w.
Proof.
  intros Hh Hs. unfold handler.
  apply mbind_congr; [reflexivity | intros dataset w1 _].
  apply mbind_congr; [reflexivity | intros day w2 _].
  apply mbind_congr; [reflexivity | intros url w3 _].
  apply mbind_congr; [reflexivity | intros [status content] w4 _].
  destruct (status_eq status 404); [reflexivity|].
  destruct (status_none_or_ge status 400); [reflexivity|].
  destruct content as [content|]; [|reflexivity].
  apply mbind_congr.
  { rewrite !head_check_passes; [reflexivity | apply Hs | apply Hh]. }
  intros u5 w5 _. reflexivity.
Qed.

End HandlerRuns.

(** ** The excerpt of the prompt *)

Module TextFacts.
Import PyDate PyTime PyTimeFacts.

Lemma str_prefix_is_prefix (n : nat) (s : string) :
  exists rest, s = (str_prefix n s ++ rest)%string.
Proof.
  revert n. induction s as [|c s IH]; intros n; cbn [str_prefix].
  - exists "". reflexivity.
  - destruct (is_continuation c).
    + destruct (IH n) as [rest E]. exists rest. cbn [append]. congruence.
    + destruct n as [|n].
      * exists (String c s). reflexivity.
      * destruct (IH n) as [rest E]. exists rest. cbn [append]. congruence.
Qed.

Lemma str_prefix_count (n : nat) (s : string) :
  (char_count (str_prefix n s) <= n)%nat.
Proof.
  revert n. induction s as [|c s IH]; intros n; cbn [str_prefix char_count].
  - lia.
  - destruct (is_continuation c) eqn:E.
    + cbn [char_count]. rewrite E. apply IH.
    + destruct n as [|n]; cbn [char_count]; [lia|].
      rewrite E. specialize (IH n). lia.
Qed.

Lemma str_prefix_short (n : nat) (s : string) :
  (char_count s <= n)%nat -> str_prefix n s = s.
Proof.
  revert n. induction s as [|c s IH]; intros n; cbn [str_prefix char_count].
  - reflexivity.
  - destruct (is_continuation c).
    + intros H. now rewrite IH.
    + destruct n as [|n]; [lia|]. intros H. rewrite IH by lia. reflexivity.
Qed.

(** X16.  A text block of the prompt is its heading followed by an
    excerpt of the preview: the excerpt is an initial part of the preview,
    has at most 8000 characters, and is the whole preview when the preview
    has at most 8000 characters. *)
Theorem text_block_excerpt (day : date) (it : item) :
  exists excerpt rest,
    text_block day it
    = ("Dataset " ++ item_dataset it ++ " (" ++ strftime day "%Y-%m-%d"
       ++ "):" ++ newline ++ excerpt)%string
    /\ item_preview it = (excerpt ++ rest)%string
    /\ Z.of_nat (char_count excerpt) <= 8000
    /\ (Z.of_nat (char_count (item_preview it)) <= 8000 ->
        excerpt = item_preview it).
Proof.
  exists (str_prefix (Z.to_nat 8000) (item_preview it)).
  destruct (str_prefix_is_prefix (Z.to_nat 8000) (item_preview it))
    as [rest E].
  exists rest. split; [reflexivity|]. split; [exact E|].
  split.
  - pose proof (str_prefix_count (Z.to_nat 8000) (item_preview it)). lia.
  - intros H. apply str_prefix_short. lia.
Qed.

End TextFacts.

(** ** The override texts *)

Module OverrideFacts.
Import PyDate PyTime PyDateFacts PyTimeFacts LocatorFacts.

Lemma append_assoc (a b c : string) :
  ((a ++ b) ++ c)%string = (a ++ b ++ c)%string.
Proof. induction a as [|x a IH]; cbn [append]; congruence. Qed.

Lemma rmatch_groupless_sound {R : Type} (r : regex) :
  groupless r = true ->
  forall (s : string) (g : dict) (k : string -> dict -> option R) (x : R),
    rmatch r s g k = Some x ->
    exists p rest,
      s = (p ++ rest)%string /\ matches r p /\ k rest g = Some x.
Proof.
  induction r as [c|lo hi| |r1 IH1 r2 IH2|r1 IH1 r2 IH2|name r IH];
    cbn [groupless rmatch]; intros Hg s g k x H; try discriminate.
  - destruct s as [|c' rest]; [discriminate|].
    destruct (Ascii.eqb_spec c c') as [<-|]; [|discriminate].
    exists (String c ""), rest. repeat split; [constructor | assumption].
  - destruct s as [|c' rest]; [discriminate|].
    destruct (in_range lo hi c') eqn:E; [|discriminate].
    exists (String c' ""), rest. repeat split; [now constructor | assumption].
  - destruct s as [|c' rest]; [discriminate|].
    destruct (is_digit c') eqn:E; [|discriminate].
    exists (String c' ""), rest. repeat split; [now constructor | assumption].
  - apply andb_prop in Hg as [Hg1 Hg2].
    apply (IH1 Hg1) in H as (p1 & rest1 & -> & M1 & H).
    apply (IH2 Hg2) in H as (p2 & rest2 & -> & M2 & H).
    exists (p1 ++ p2)%string, rest2.
    split; [now rewrite append_assoc|]. split; [now constructor | assumption].
  - apply andb_prop in Hg as [Hg1 Hg2].
    destruct (rmatch r1 s g k) as [y|] eqn:E.
    + injection H as <-.
      apply (IH1 Hg1) in E as (p & rest & -> & M & E).
      exists p, rest. repeat split; [now apply matches_alt_l | assumption].
    + apply (IH2 Hg2) in H as (p & rest & -> & M & H).
      exists p, rest. repeat split; [now apply matches_alt_r | assumption].
Qed.

Lemma rmatch_group_sound {R : Type} (name : string) (r : regex) :
  groupless r = true ->
  forall (s : string) (g : dict) (k : string -> dict -> option R) (x : R),
    rmatch (Group name r) s g k = Some x ->
    exists p rest,
      s = (p ++ rest)%string /\ matches r p
      /\ k rest ((name, p) :: g) = Some x.
Proof.
  intros Hg s g k x H. cbn [rmatch] in H.
  apply (rmatch_groupless_sound r Hg) in H as (p & rest & -> & M & H).
  rewrite consumed_app in H. eauto.
Qed.

Lemma re_match_sound (s rest : string) (found_dict : dict) :
  re_match format_regex s = Some (rest, found_dict) ->
  exists Y M D,
    s = (Y ++ "-" ++ M ++ "-" ++ D ++ rest)%string
    /\ matches body_Y Y /\ matches body_m M /\ matches body_d D
    /\ found_dict = [("d", D); ("m", M); ("Y", Y)].
Proof.
  unfold re_match, format_regex. intros H.
  cbn [rmatch] in H. unfold re_Y, re_m, re_d in H.
  apply rmatch_group_sound in H as (Y & r1 & -> & MY & H); [|reflexivity].
  destruct r1 as [|c1 r1]; [discriminate|].
  destruct (Ascii.eqb_spec "-" c1) as [<-|]; [|discriminate].
  apply rmatch_group_sound in H as (M & r2 & -> & MM & H); [|reflexivity].
  destruct r2 as [|c2 r2]; [discriminate|].
  destruct (Ascii.eqb_spec "-" c2) as [<-|]; [|discriminate].
  apply rmatch_group_sound in H as (D & r3 & -> & MD & H); [|reflexivity].
  injection H as <- <-.
  exists Y, M, D. repeat split; assumption.
Qed.

Lemma In_decide (x : string) (l : list string) :
  existsb (String.eqb x) l = true -> In x l.
Proof.
  intros H. apply existsb_exists in H as (y & Hy & E).
  apply String.eqb_eq in E. now subst.
Qed.

Lemma is_digit_char (c : ascii) :
  is_digit c = true -> exists v, 0 <= v <= 9 /\ c = digit_char v.
Proof.
  intros H. exists (digit_value c).
  destruct c as [[] [] [] [] [] [] [] []]; try discriminate H;
    vm_compute; repeat split; discriminate.
Qed.

Lemma in_range_digit (lo hi c : ascii) :
  in_range lo hi c = true -> is_digit lo = true -> is_digit hi = true ->
  exists v, digit_value lo <= v <= digit_value hi /\ c = digit_char v.
Proof.
  intros H Hlo Hhi.
  assert (Hc : is_digit c = true).
  { unfold in_range, is_digit in *.
    rewrite !andb_true_iff, !Nat.leb_le in *. lia. }
  destruct (is_digit_char c Hc) as (v & Hv & ->).
  exists v. split; [|reflexivity].
  destruct (digit_char_facts v Hv) as (_ & Hval & _).
  unfold in_range in H. rewrite andb_true_iff, !Nat.leb_le in H.
  unfold digit_value in *. lia.
Qed.

Ltac invert_matches :=
  repeat match goal with
    | H : matches (Seq _ _) _ |- _ => inversion H; subst; clear H
    | H : matches (Alt _ _) _ |- _ => inversion H; subst; clear H
    | H : matches (Chr _) _ |- _ => inversion H; subst; clear H
    | H : matches (Range _ _) _ |- _ =>
        inversion H; subst; clear H
    | H : matches Digit _ |- _ => inversion H; subst; clear H
    end.

Ltac name_digits :=
  repeat match goal with
    | H : in_range ?lo ?hi ?c = true |- _ =>
        let v := fresh "v" in
        let Hv := fresh "Hv" in
        apply in_range_digit in H as (v & Hv & ->); [|reflexivity|reflexivity];
        let a := eval vm_compute in (digit_value lo) in
        let b := eval vm_compute in (digit_value hi) in
        change (a <= v <= b) in Hv
    | H : is_digit ?c = true |- _ =>
        let v := fresh "v" in
        let Hv := fresh "Hv" in
        apply is_digit_char in H as (v & Hv & ->)
    end.

Lemma matches_Y (Y : string) :
  matches body_Y Y ->
  exists y, 0 <= y <= 9999 /\ Y = zero_pad4 y.
Proof.
  cbv [body_Y re_Y]. intros H. invert_matches. name_digits.
  cbn [append].
  exists (1000 * v + 100 * v0 + 10 * v1 + v2). split; [lia|].
  unfold zero_pad4, zero_pad2.
  repeat f_equal; Z.div_mod_to_equations; lia.
Qed.

Ltac close_text m :=
  exists m; split; [lia|]; split; [apply In_decide|]; vm_compute; reflexivity.

Lemma matches_m (M : string) :
  matches body_m M ->
  exists m, 1 <= m <= 12 /\ In M (month_texts m) /\ int M = Ok m.
Proof.
  cbv [body_m re_m]. intros H. invert_matches; name_digits; cbn [append].
  - zcases v 0 3%nat; [close_text 10 | close_text 11 | close_text 12].
  - zcases v 1 9%nat;
      [close_text 1 | close_text 2 | close_text 3 | close_text 4
      | close_text 5 | close_text 6 | close_text 7 | close_text 8
      | close_text 9].
  - zcases v 1 9%nat;
      [close_text 1 | close_text 2 | close_text 3 | close_text 4
      | close_text 5 | close_text 6 | close_text 7 | close_text 8
      | close_text 9].
Qed.

Lemma matches_d (D : string) :
  matches body_d D ->
  exists d, 1 <= d <= 31 /\ In D (day_texts d) /\ int D = Ok d.
Proof.
  cbv [body_d re_d]. intros H. invert_matches; name_digits; cbn [append].
  - zcases v 0 2%nat; [close_text 30 | close_text 31].
  - zcases v 1 2%nat; zcases v0 0 10%nat;
      match goal with
      | |- context [String (digit_char ?a) (String (digit_char ?b) "")] =>
          let n := eval vm_compute in (10 * a + b) in close_text n
      end.
  - zcases v 1 9%nat;
      match goal with
      | |- context [digit_char ?a] => close_text a
      end.
  - zcases v 1 9%nat;
      match goal with
      | |- context [digit_char ?a] => close_text a
      end.
  - zcases v 1 9%nat;
      match goal with
      | |- context [digit_char ?a] => close_text a
      end.
Qed.

Lemma consumed_1 (a : ascii) (rest : string) :
  consumed (String a rest) rest = String a "".
Proof. apply (consumed_app (String a "") rest). Qed.

Lemma consumed_all (s : string) : consumed s "" = s.
Proof.
  rewrite <- (append_empty_r s) at 1. apply consumed_app.
Qed.

Ltac pick_text :=
  match goal with
  | H : In _ _ |- _ =>
      cbv [month_texts day_texts Z.ltb Z.compare Pos.compare Pos.compare_cont]
        in H;
      cbn [In] in H;
      repeat (destruct H as [H | H]); [..| contradiction]; subst;
      match goal with
      | |- context [zero_pad2 ?n] =>
          let v := eval vm_compute in (zero_pad2 n) in
          change (zero_pad2 n) with v
      | |- context [digit_char ?n] =>
          let v := eval vm_compute in (digit_char n) in
          change (digit_char n) with v
      end
  end.

Lemma rmatch_m_texts {R : Type} (m : Z) (M rest : string) (g : dict)
  (k : string -> dict -> option R) (x : R) :
  1 <= m <= 12 -> In M (month_texts m) ->
  k (String "-" rest) (("m", M) :: g) = Some x ->
  rmatch re_m (M ++ String "-" rest) g k = Some x.
Proof.
  intros Hm HM.
  zcases m 1 12%nat; pick_text;
    intros Hk; unfold re_m; cbn [rmatch append]; eval_tests; cbn beta iota;
    rewrite ?consumed_2, ?consumed_1, ?Hk; reflexivity.
Qed.

Lemma rmatch_d_texts {R : Type} (d : Z) (D : string) (g : dict)
  (k : string -> dict -> option R) (x : R) :
  1 <= d <= 31 -> In D (day_texts d) ->
  k "" (("d", D) :: g) = Some x ->
  rmatch re_d D g k = Some x.
Proof.
  intros Hd HD.
  zcases d 1 31%nat; pick_text;
    intros Hk; unfold re_d; cbn [rmatch append]; eval_tests; cbn beta iota;
    rewrite ?consumed_all, ?Hk; reflexivity.
Qed.

Lemma int_month_texts (m : Z) (M : string) :
  1 <= m <= 12 -> In M (month_texts m) -> int M = Ok m.
Proof.
  intros Hm HM. zcases m 1 12%nat; pick_text; reflexivity.
Qed.

Lemma int_day_texts (d : Z) (D : string) :
  1 <= d <= 31 -> In D (day_texts d) -> int D = Ok d.
Proof.
  intros Hd HD. zcases d 1 31%nat; pick_text; reflexivity.
Qed.

Lemma override_texts_iff (d : date) (s : string) :
  In s (override_texts d) <->
  exists M D,
    In M (month_texts (date_month d)) /\ In D (day_texts (date_day d))
    /\ s = (zero_pad4 (date_year d) ++ "-" ++ M ++ "-" ++ D)%string.
Proof.
  unfold override_texts. rewrite in_flat_map. split.
  - intros (M & HM & H). apply in_map_iff in H as (D & <- & HD). eauto.
  - intros (M & D & HM & HD & ->). exists M. split; [assumption|].
    apply in_map_iff. eauto.
Qed.

Lemma strptime_date_texts (d : date) (s : string) :
  valid_date d -> In s (override_texts d) -> strptime_date s = Ok d.
Proof.
  intros Hv Hs. apply override_texts_iff in Hs as (M & D & HM & HD & ->).
  pose proof Hv as Hv'.
  apply valid_date_iff in Hv'. destruct Hv' as (Hy & Hm & Hd).
  unfold MINYEAR, MAXYEAR in Hy.
  pose proof (days_in_month_le_31 (date_year d) _ Hm) as H31.
  assert (Hre : re_match format_regex
                  (zero_pad4 (date_year d) ++ "-" ++ M ++ "-" ++ D)
                = Some ("", [("d", D); ("m", M);
                             ("Y", zero_pad4 (date_year d))])).
  { unfold re_match, format_regex. cbn [rmatch].
    unfold zero_pad4 at 1. unfold zero_pad2 at 1. cbn [append].
    rewrite rmatch_Y;
      try (apply digit_char_facts; Z.div_mod_to_equations; lia).
    eval_tests. cbn beta iota.
    apply (rmatch_m_texts (date_month d)); [lia | assumption |].
    eval_tests. cbn beta iota.
    apply (rmatch_d_texts (date_day d)); [lia | assumption |].
    reflexivity. }
  unfold strptime_date. rewrite Hre.
  change (negb (String.eqb "" "")) with false. cbn beta iota.
  change (dict_getitem _ "Y") with (Ok (zero_pad4 (date_year d))).
  cbn [bind]. rewrite int_zero_pad4 by lia. cbn [bind].
  change (dict_getitem _ "m") with (Ok M).
  cbn [bind]. rewrite (int_month_texts (date_month d)) by (lia || assumption).
  cbn [bind].
  change (dict_getitem _ "d") with (Ok D).
  cbn [bind]. rewrite (int_day_texts (date_day d)) by (lia || assumption).
  cbn [bind]. exact Hv.
Qed.

Lemma strptime_date_sound (d : date) (s : string) :
  strptime_date s = Ok d -> valid_date d /\ In s (override_texts d).
Proof.
  unfold strptime_date. intros H.
  destruct (re_match format_regex s) as [[rest fd]|] eqn:E; [|discriminate].
  destruct (String.eqb_spec rest "") as [->|]; [|discriminate].
  cbn [negb] in H.
  apply re_match_sound in E as (Y & M & D & -> & MY & MM & MD & ->).
  change (dict_getitem _ "Y") with (Ok Y) in H.
  change (dict_getitem _ "m") with (Ok M) in H.
  change (dict_getitem _ "d") with (Ok D) in H.
  apply matches_Y in MY as (y & Hy & ->).
  apply matches_m in MM as (m & Hm & HM & IM).
  apply matches_d in MD as (dd & Hd & HD & ID).
  cbn [bind] in H. rewrite int_zero_pad4 in H by assumption.
  cbn [bind] in H. rewrite IM in H. cbn [bind] in H. rewrite ID in H.
  cbn [bind] in H.
  destruct (check_date_fields_cases y m dd) as [[E Hv]|[msg E]];
    rewrite E in H; [|discriminate].
  injection H as <-. split; [assumption|].
  apply override_texts_iff. exists M, D. cbn [date_year date_month date_day].
  rewrite append_empty_r. auto.
Qed.

(** X17.  The override texts that select a date.  For a non-empty
    override made of ASCII characters the resolver returns the date [d]
    exactly when [d] is a civil date and the override is its year as four
    digits, a hyphen, its month, a hyphen and its day, where a month or
    day below 10 may be written with or without the leading zero and a
    day below 10 also with a blank in its place.  For every other such
    override the resolver returns no date.  (Outside ASCII, [\d] and
    [int] of the library also take the decimal digits of other
    scripts.) *)
Theorem resolve_report_date_override_texts (tz : ZoneInfo) (w : process)
  (dataset : string) (now_utc : option datetime) (override : string)
  (d : date) :
  getenv_REPORT_DATE w = Some override -> override <> "" ->
  ascii_only override = true ->
  resolve_report_date tz w dataset now_utc = Ok d
  <-> valid_date d /\ In override (override_texts d).
Proof.
  intros H Hne _.
  rewrite (ResolverFacts.resolve_override tz w dataset now_utc override H Hne).
  split.
  - apply strptime_date_sound.
  - intros [Hv Hin]. now apply strptime_date_texts.
Qed.

(** C5.  A non-empty override decides the result, and the rules are
    never applied: the resolver returns what parsing the override
    returns, the same for every dataset, instant, clock and zone.  The
    YYYY-MM-DD text of a civil date gives that date.  An override made of
    ASCII characters either is one of the texts of a civil date (its
    YYYY-MM-DD text, or that text with the zero of a month or day below
    10 left out, or with the zero of such a day replaced by a blank) and
    gives that date, or is the text of no civil date and makes the
    resolver fail with the parser's [ValueError]. *)
Theorem resolve_report_date_override (tz : ZoneInfo) (w : process)
  (dataset : string) (now_utc : option datetime) (override : string) :
  getenv_REPORT_DATE w = Some override -> override <> "" ->
  (forall tz' w' dataset' now_utc',
     getenv_REPORT_DATE w' = Some override ->
     resolve_report_date tz' w' dataset' now_utc'
     = resolve_report_date tz w dataset now_utc)
  /\ resolve_report_date tz w dataset now_utc = strptime_date override
  /\ (forall d, valid_date d -> override = strftime d "%Y-%m-%d" ->
                resolve_report_date tz w dataset now_utc = Ok d)
  /\ (ascii_only override = true ->
      (exists d,
         valid_date d /\ In override (override_texts d)
         /\ resolve_report_date tz w dataset now_utc = Ok d)
      \/ ((forall d, valid_date d -> ~ In override (override_texts d))
          /\ exists msg,
               resolve_report_date tz w dataset now_utc
               = Err (ValueError msg))).
Proof.
  intros H Hne.
  rewrite (ResolverFacts.resolve_override tz w dataset now_utc override H Hne).
  split.
  { intros tz' w' dataset' now_utc' H'.
    apply ResolverFacts.resolve_override; assumption. }
  split; [reflexivity|]. split.
  { intros d Hv ->. now apply strptime_strftime. }
  intros _.
  destruct (strptime_date_cases override) as [(d & Hd & Hv) | (msg & Hm)].
  - left. exists d. split; [exact Hv|]. split; [|exact Hd].
    now apply strptime_date_sound.
  - right. split; [|eauto].
    intros d Hv Hin. rewrite (strptime_date_texts d override Hv Hin) in Hm.
    discriminate.
Qed.

End OverrideFacts.

(** ** The theorems at concrete inputs *)

Module Instances.
Import PyDate PyTime Example.
Import StepperFacts ResolverFacts PipelineFacts.

(** C3 on Saturday 16 March 2024. *)
Lemma previous_business_day_spec_witness :
  valid_date (mkdate 2024 3 16)
  /\ exists d',
       previous_business_day (mkdate 2024 3 16) = Ok d' /\ valid_date d'
       /\ is_business_day d'
       /\ (d' = mkdate 2024 3 16 <-> is_business_day (mkdate 2024 3 16))
       /\ (weekday (mkdate 2024 3 16) = 5 ->
           weekday d' = 4 /\ toordinal d' = toordinal (mkdate 2024 3 16) - 1)
       /\ (weekday (mkdate 2024 3 16) = 6 ->
           weekday d' = 4 /\ toordinal d' = toordinal (mkdate 2024 3 16) - 2).
Proof.
  assert (Hv : valid_date (mkdate 2024 3 16)) by (vm_compute; reflexivity).
  split; [exact Hv | exact (previous_business_day_spec (mkdate 2024 3 16) Hv)].
Defined.

(** C4 on Sunday 17 March 2024. *)
Lemma previous_business_day_idempotent_witness :
  valid_date (mkdate 2024 3 17)
  /\ exists d',
       previous_business_day (mkdate 2024 3 17) = Ok d'
       /\ previous_business_day d' = Ok d'
       /\ bind (previous_business_day (mkdate 2024 3 17))
            previous_business_day
          = previous_business_day (mkdate 2024 3 17).
Proof.
  assert (Hv : valid_date (mkdate 2024 3 17)) by (vm_compute; reflexivity).
  split;
    [exact Hv | exact (previous_business_day_idempotent (mkdate 2024 3 17) Hv)].
Defined.

(** C1 on a Wednesday at 09:59 local time: the step of Tuesday. *)
Lemma resolve_report_date_ST1_witness :
  no_override (fresh None wednesday_morning)
  /\ astimezone wednesday_morning mountain_standard_time
     = Ok wednesday_morning_local
  /\ resolve_report_date mountain_standard_time
       (fresh None wednesday_morning) "ST1" None
     = bind (sub_days (mkdate 2024 3 13) 1) previous_business_day.
Proof.
  assert (H1 : no_override (fresh None wednesday_morning))
    by (left; reflexivity).
  assert (H2 : astimezone (instant_of (fresh None wednesday_morning) None)
                 mountain_standard_time = Ok wednesday_morning_local)
    by (vm_compute; reflexivity).
  split; [exact H1|]. split; [exact H2|].
  apply (proj1 (resolve_report_date_ST1 mountain_standard_time
                  (fresh None wednesday_morning) None wednesday_morning_local
                  H1 H2)).
  simpl. lia.
Defined.

(** C2 on a Saturday: the step of that Saturday. *)
Lemma resolve_report_date_ST100_witness :
  no_override (fresh None saturday_noon)
  /\ astimezone saturday_noon mountain_standard_time = Ok saturday_noon_local
  /\ resolve_report_date mountain_standard_time
       (fresh None saturday_noon) "ST100" None
     = previous_business_day (mkdate 2024 3 16).
Proof.
  assert (H1 : no_override (fresh None saturday_noon)) by (left; reflexivity).
  assert (H2 : astimezone (instant_of (fresh None saturday_noon) None)
                 mountain_standard_time = Ok saturday_noon_local)
    by (vm_compute; reflexivity).
  split; [exact H1|]. split; [exact H2|].
  apply (proj1 (resolve_report_date_ST100 mountain_standard_time
                  (fresh None saturday_noon) None saturday_noon_local H1 H2)).
  left. vm_compute. reflexivity.
Defined.

(** C5 with the override 2024-03-15 and a dataset tag that is not known,
    and with the override 15/03/2024, which the parser rejects. *)
Lemma resolve_report_date_override_witness :
  getenv_REPORT_DATE (fresh (Some "2024-03-15") saturday_noon)
  = Some "2024-03-15"
  /\ "2024-03-15" <> ""
  /\ resolve_report_date mountain_standard_time
       (fresh (Some "2024-03-15") saturday_noon) "ST2" None
     = Ok (mkdate 2024 3 15)
  /\ getenv_REPORT_DATE (fresh (Some "15/03/2024") saturday_noon)
     = Some "15/03/2024"
  /\ "15/03/2024" <> ""
  /\ ascii_only "15/03/2024" = true
  /\ (forall d, valid_date d -> ~ In "15/03/2024" (override_texts d))
  /\ exists msg,
       resolve_report_date mountain_standard_time
         (fresh (Some "15/03/2024") saturday_noon) "ST1" None
       = Err (ValueError msg).
Proof.
  assert (H1 : getenv_REPORT_DATE (fresh (Some "2024-03-15") saturday_noon)
               = Some "2024-03-15") by reflexivity.
  assert (H2 : "2024-03-15" <> "") by discriminate.
  assert (H3 : getenv_REPORT_DATE (fresh (Some "15/03/2024") saturday_noon)
               = Some "15/03/2024") by reflexivity.
  assert (H4 : "15/03/2024" <> "") by discriminate.
  assert (H5 : ascii_only "15/03/2024" = true) by reflexivity.
  split; [exact H1|]. split; [exact H2|]. split.
  { apply (proj1 (proj2 (proj2
             (OverrideFacts.resolve_report_date_override
                mountain_standard_time
                (fresh (Some "2024-03-15") saturday_noon) "ST2" None
                "2024-03-15" H1 H2)))).
    - vm_compute. reflexivity.
    - vm_compute. reflexivity. }
  split; [exact H3|]. split; [exact H4|]. split; [exact H5|].
  destruct (proj2 (proj2 (proj2
              (OverrideFacts.resolve_report_date_override
                 mountain_standard_time
                 (fresh (Some "15/03/2024") saturday_noon) "ST1" None
                 "15/03/2024" H3 H4))) H5)
    as [(d & _ & _ & E) | [Hno Hmsg]].
  - vm_compute in E. discriminate E.
  - split; [exact Hno | exact Hmsg].
Defined.

(** C5: the overrides 2024-3-5 and 2024-03- 5 are the YYYY-MM-DD text of
    no date, and the resolver returns 5 March 2024 for both. *)
Lemma malformed_override_counterexample :
  (forall d, strftime d "%Y-%m-%d" <> "2024-3-5")
  /\ (forall d, strftime d "%Y-%m-%d" <> "2024-03- 5")
  /\ resolve_report_date mountain_standard_time
       (fresh (Some "2024-3-5") saturday_noon) "ST1" None
     = Ok (mkdate 2024 3 5)
  /\ resolve_report_date mountain_standard_time
       (fresh (Some "2024-03- 5") saturday_noon) "ST1" None
     = Ok (mkdate 2024 3 5).
Proof.
  split.
  { intros d H. apply (f_equal String.length) in H.
    rewrite PyTimeFacts.strftime_iso in H. vm_compute in H. discriminate H. }
  split.
  { intros d H. rewrite PyTimeFacts.strftime_iso in H.
    unfold zero_pad4, zero_pad2 in H. cbn [append] in H.
    injection H as _ _ _ _ _ _ H8 _.
    assert (Hr : 0 <= date_day d / 10 mod 10 <= 9)
      by (Z.div_mod_to_equations; lia).
    destruct (PyTimeFacts.digit_char_facts _ Hr) as (_ & _ & Hs).
    rewrite H8 in Hs. discriminate Hs. }
  split; vm_compute; reflexivity.
Qed.

(** C10 on a Wednesday at 09:59 local time, dataset ST1: the rule for
    the hours before 10 is applied. *)
Lemma resolve_report_date_empty_override_witness :
  getenv_REPORT_DATE (fresh (Some "") wednesday_morning) = Some ""
  /\ astimezone wednesday_morning mountain_standard_time
     = Ok wednesday_morning_local
  /\ hour wednesday_morning_local < 10
  /\ resolve_report_date mountain_standard_time
       (fresh (Some "") wednesday_morning) "ST1" None
     = bind (sub_days (mkdate 2024 3 13) 1) previous_business_day.
Proof.
  assert (H1 : getenv_REPORT_DATE (fresh (Some "") wednesday_morning)
               = Some "") by reflexivity.
  assert (H2 : astimezone
                 (instant_of (fresh (Some "") wednesday_morning) None)
                 mountain_standard_time
               = Ok wednesday_morning_local) by (vm_compute; reflexivity).
  assert (H3 : hour wednesday_morning_local < 10) by (vm_compute; reflexivity).
  split; [exact H1|]. split; [exact H2|]. split; [exact H3|].
  exact (proj1 (proj1 (proj2 (proj2 (proj2 (proj2
           (resolve_report_date_empty_override mountain_standard_time
              (fresh (Some "") wednesday_morning) "ST1" None H1)))))
           wednesday_morning_local H2) eq_refl H3).
Defined.

(** C6: the key of an unknown tag is built, and an override is returned
    for an unknown tag. *)
Lemma unknown_dataset_counterexample :
  "ST2" <> "ST1" /\ "ST2" <> "ST100"
  /\ s3_key (mkdate 2024 3 15) "ST2" "txt" = "2024/03/15/st2_20240315.txt"
  /\ resolve_report_date mountain_standard_time
       (fresh (Some "2024-03-15") saturday_noon) "ST2" None
     = Ok (mkdate 2024 3 15).
Proof.
  split; [discriminate|]. split; [discriminate|].
  split; vm_compute; reflexivity.
Qed.

(** C6, as amended, on the tag ST2. *)
Lemma unknown_dataset_rejected_witness :
  "ST2" <> "ST1" /\ "ST2" <> "ST100"
  /\ forall day, build_url "ST2" day = Err (unknown_dataset "ST2").
Proof.
  assert (H1 : "ST2" <> "ST1") by discriminate.
  assert (H2 : "ST2" <> "ST100") by discriminate.
  split; [exact H1|]. split; [exact H2|].
  apply (proj1 (unknown_dataset_rejected mountain_standard_time
                  (fresh None saturday_noon) "ST2" None H1 H2)).
Defined.

(** C7: the override 2024-03-16 is returned, and it is a Saturday. *)
Lemma weekend_override_counterexample :
  resolve_report_date mountain_standard_time
    (fresh (Some "2024-03-16") wednesday_morning) "ST1" None
  = Ok (mkdate 2024 3 16)
  /\ weekday (mkdate 2024 3 16) = 5
  /\ ~ is_business_day (mkdate 2024 3 16).
Proof.
  split; [vm_compute; reflexivity|].
  assert (H : weekday (mkdate 2024 3 16) = 5) by (vm_compute; reflexivity).
  split; [exact H|]. unfold is_business_day. rewrite H. lia.
Qed.

(** C7, as amended, on a Saturday for dataset ST100. *)
Lemma resolve_report_date_business_day_witness :
  no_override (fresh None saturday_noon)
  /\ resolve_report_date mountain_standard_time
       (fresh None saturday_noon) "ST100" None
     = Ok (mkdate 2024 3 15)
  /\ is_business_day (mkdate 2024 3 15) /\ valid_date (mkdate 2024 3 15).
Proof.
  assert (H1 : no_override (fresh None saturday_noon)) by (left; reflexivity).
  assert (H2 : resolve_report_date mountain_standard_time
                 (fresh None saturday_noon) "ST100" None
               = Ok (mkdate 2024 3 15)) by (vm_compute; reflexivity).
  split; [exact H1|]. split; [exact H2|].
  exact (resolve_report_date_business_day mountain_standard_time
           (fresh None saturday_noon) "ST100" None (mkdate 2024 3 15) H1 H2).
Defined.

(** C8 with a fetch that raises [HTTPError] 404. *)
Lemma handler_not_ready_witness :
  fst (http_get (services_replying (HTTPError 404))
         "https://static.aer.ca/data/well-lic/WELLS0312.txt"
         (fresh None wednesday_morning))
  = Ok (Some 404, None)
  /\ exists res w',
       run (HTTPError 404) [("dataset", "ST1")] (fresh None wednesday_morning)
       = (Ok res, w')
       /\ res = [("dataset", "ST1"); ("date", "2024-03-12");
                 ("status", "not_ready");
                 ("url", "https://static.aer.ca/data/well-lic/WELLS0312.txt")]
       /\ dict_get res "status" = Some "not_ready"
       /\ calls w'
          = [HttpGet "https://static.aer.ca/data/well-lic/WELLS0312.txt"].
Proof.
  assert (H : fst (http_get (services_replying (HTTPError 404))
                     "https://static.aer.ca/data/well-lic/WELLS0312.txt"
                     (fresh None wednesday_morning))
              = Ok (Some 404, None)) by reflexivity.
  split; [exact H|].
  apply (handler_not_ready mountain_standard_time "raw-bucket" "topic" "model"
           sha256_stub decode_stub dumps_stub
           (services_replying (HTTPError 404))
           [("dataset", "ST1")] (fresh None wednesday_morning)
           "ST1" "https://static.aer.ca/data/well-lic/WELLS0312.txt"
           (mkdate 2024 3 12) None).
  - reflexivity.
  - vm_compute. reflexivity.
  - vm_compute. reflexivity.
  - exact H.
Defined.

(** C9: the subject sent for dataset ST1 and report date 2024-03-12
    begins with "AER ", so it is not "ST1 summary – 2024-03-12". *)
Lemma notification_subject_counterexample :
  fst (run (Response (Some 200) []) [("dataset", "ST1")]
         (fresh None wednesday_morning))
  = Ok [("dataset", "ST1"); ("date", "2024-03-12");
        ("status", "emailed_and_deleted");
        ("url", "https://static.aer.ca/data/well-lic/WELLS0312.txt")]
  /\ subjects_sent
       (calls (snd (run (Response (Some 200) []) [("dataset", "ST1")]
                      (fresh None wednesday_morning))))
     = ["AER ST1 summary – 2024-03-12"]
  /\ subjects_sent
       (calls (snd (run (Response (Some 200) []) [("dataset", "ST1")]
                      (fresh None wednesday_morning))))
     <> ["ST1 summary – 2024-03-12"].
Proof.
  split; [vm_compute; reflexivity|].
  assert (H : subjects_sent
                (calls (snd (run (Response (Some 200) []) [("dataset", "ST1")]
                               (fresh None wednesday_morning))))
              = ["AER ST1 summary – 2024-03-12"]) by (vm_compute; reflexivity).
  split; [exact H|]. rewrite H. discriminate.
Qed.

(** C9, as amended, on the same invocation. *)
Lemma handler_notification_subject_witness :
  dict_get [("dataset", "ST1"); ("date", "2024-03-12");
            ("status", "emailed_and_deleted");
            ("url", "https://static.aer.ca/data/well-lic/WELLS0312.txt")]
    "status"
  = Some "emailed_and_deleted"
  /\ exists dataset day,
       dict_get [("dataset", "ST1")] "dataset" = Some dataset
       /\ resolve_report_date mountain_standard_time
            (fresh None wednesday_morning) dataset None = Ok day
       /\ subjects_sent
            (calls (snd (run (Response (Some 200) []) [("dataset", "ST1")]
                           (fresh None wednesday_morning))))
          = [("AER " ++ dataset ++ " summary – "
              ++ strftime day "%Y-%m-%d")%string].
Proof.
  split; [reflexivity|].
  destruct (handler_notification_subject mountain_standard_time "raw-bucket"
              "topic" "model" sha256_stub decode_stub dumps_stub
              (services_replying (Response (Some 200) []))
              [("dataset", "ST1")]
              [("dataset", "ST1"); ("date", "2024-03-12");
               ("status", "emailed_and_deleted");
               ("url", "https://static.aer.ca/data/well-lic/WELLS0312.txt")]
              (fresh None wednesday_morning)
              (snd (run (Response (Some 200) []) [("dataset", "ST1")]
                      (fresh None wednesday_morning))))
    as (dataset & day & url & content & body & message
        & Hds & Hday & _ & _ & Hsub).
  - vm_compute. reflexivity.
  - reflexivity.
  - exists dataset, day. split; [exact Hds|]. split; [exact Hday|].
    exact Hsub.
Defined.

(** The parser is the library's: it also takes a month or a day written
    without padding, and rejects what is left. *)
Example strptime_date_unpadded :
  strptime_date "2024-3-5" = Ok (mkdate 2024 3 5)
  /\ strptime_date "2024-02-30"
     = Err (ValueError "day is out of range for month")
  /\ strptime_date "15/03/2024"
     = Err (ValueError "time data does not match format '%Y-%m-%d'")
  /\ strptime_date "2024-03-155" = Err (ValueError "unconverted data remains").
Proof. repeat split; vm_compute; reflexivity. Qed.

(** The cutoff examples, in Mountain Standard Time.  Dataset ST1 at 09:59
    on Wednesday 13 March 2024 resolves to Tuesday, and at 10:01 on Monday
    11 March to that Monday; at 09:00 on that Monday to the Friday
    before. *)
Example st1_cutoff :
  resolve_report_date mountain_standard_time (fresh None wednesday_morning)
    "ST1" None = Ok (mkdate 2024 3 12)
  /\ resolve_report_date mountain_standard_time (fresh None wednesday_morning)
       "ST1" (Some (mkdatetime (mkdate 2024 3 11) 17 1 0 0))
     = Ok (mkdate 2024 3 11)
  /\ resolve_report_date mountain_standard_time (fresh None wednesday_morning)
       "ST1" (Some (mkdatetime (mkdate 2024 3 11) 16 0 0 0))
     = Ok (mkdate 2024 3 8).
Proof. repeat split; vm_compute; reflexivity. Qed.

(** Dataset ST100 on a Saturday resolves to the Friday before; at 20:59
    on Tuesday 12 March 2024 to Monday, and at 21:01 to that Tuesday. *)
Example st100_cutoff :
  resolve_report_date mountain_standard_time (fresh None saturday_noon)
    "ST100" None = Ok (mkdate 2024 3 15)
  /\ resolve_report_date mountain_standard_time (fresh None saturday_noon)
       "ST100" (Some (mkdatetime (mkdate 2024 3 13) 3 59 0 0))
     = Ok (mkdate 2024 3 11)
  /\ resolve_report_date mountain_standard_time (fresh None saturday_noon)
       "ST100" (Some (mkdatetime (mkdate 2024 3 13) 4 1 0 0))
     = Ok (mkdate 2024 3 12).
Proof. repeat split; vm_compute; reflexivity. Qed.

(** At the first day of the calendar there is no day before: the
    subtraction raises, as [date.min - timedelta(days=1)] does. *)
Example st1_first_day :
  resolve_report_date mountain_standard_time (fresh None wednesday_morning)
    "ST1" (Some (mkdatetime (mkdate 1 1 1) 12 0 0 0))
  = Err (OverflowError "result out of range").
Proof. vm_compute. reflexivity. Qed.

End Instances.

(** ** The further properties at concrete inputs *)

Module MoreInstances.
Import PyDate PyTime Example.
Import StepperOrder ResolverBounds LocatorFacts HandlerRuns OverrideFacts.

(** X1 on Sunday 17 March 2024. *)
Lemma previous_business_day_latest_witness :
  valid_date (mkdate 2024 3 17)
  /\ exists d',
       previous_business_day (mkdate 2024 3 17) = Ok d'
       /\ toordinal d' <= toordinal (mkdate 2024 3 17)
       /\ is_business_day d'
       /\ forall e, is_business_day e ->
                    toordinal e <= toordinal (mkdate 2024 3 17) ->
                    toordinal e <= toordinal d'.
Proof.
  assert (Hv : valid_date (mkdate 2024 3 17)) by (vm_compute; reflexivity).
  split;
    [exact Hv | exact (previous_business_day_latest (mkdate 2024 3 17) Hv)].
Defined.

(** X2 on Saturday 16 and Monday 18 March 2024. *)
Lemma previous_business_day_monotone_witness :
  valid_date (mkdate 2024 3 16) /\ valid_date (mkdate 2024 3 18)
  /\ toordinal (mkdate 2024 3 16) <= toordinal (mkdate 2024 3 18)
  /\ exists r1 r2,
       previous_business_day (mkdate 2024 3 16) = Ok r1
       /\ previous_business_day (mkdate 2024 3 18) = Ok r2
       /\ toordinal r1 <= toordinal r2.
Proof.
  assert (H1 : valid_date (mkdate 2024 3 16)) by (vm_compute; reflexivity).
  assert (H2 : valid_date (mkdate 2024 3 18)) by (vm_compute; reflexivity).
  assert (H3 : toordinal (mkdate 2024 3 16) <= toordinal (mkdate 2024 3 18))
    by (vm_compute; discriminate).
  split; [exact H1|]. split; [exact H2|]. split; [exact H3|].
  exact (previous_business_day_monotone _ _ H1 H2 H3).
Defined.

(** X3 on a Wednesday at 09:59 local time, dataset ST1: Tuesday. *)
Lemma resolve_report_date_lag_witness :
  no_override (fresh None wednesday_morning)
  /\ astimezone wednesday_morning mountain_standard_time
     = Ok wednesday_morning_local
  /\ resolve_report_date mountain_standard_time
       (fresh None wednesday_morning) "ST1" None
     = Ok (mkdate 2024 3 12)
  /\ toordinal (mkdate 2024 3 13) - 3 <= toordinal (mkdate 2024 3 12)
     <= toordinal (mkdate 2024 3 13).
Proof.
  assert (H1 : no_override (fresh None wednesday_morning))
    by (left; reflexivity).
  assert (H2 : astimezone (instant_of (fresh None wednesday_morning) None)
                 mountain_standard_time
               = Ok wednesday_morning_local) by (vm_compute; reflexivity).
  assert (H3 : resolve_report_date mountain_standard_time
                 (fresh None wednesday_morning) "ST1" None
               = Ok (mkdate 2024 3 12)) by (vm_compute; reflexivity).
  split; [exact H1|]. split; [exact H2|]. split; [exact H3|].
  exact (resolve_report_date_lag mountain_standard_time
           (fresh None wednesday_morning) "ST1" None wednesday_morning_local
           (mkdate 2024 3 12) H1 H2 H3).
Defined.

(** X4 on a Saturday at 11:00 local time, dataset ST100. *)
Lemma resolve_report_date_weekend_witness :
  no_override (fresh None saturday_noon)
  /\ astimezone saturday_noon mountain_standard_time = Ok saturday_noon_local
  /\ known_dataset "ST100"
  /\ 4 < weekday (mkdate 2024 3 16)
  /\ exists d,
       resolve_report_date mountain_standard_time (fresh None saturday_noon)
         "ST100" None
       = Ok d
       /\ weekday d = 4
       /\ toordinal d
          = toordinal (mkdate 2024 3 16) - (weekday (mkdate 2024 3 16) - 4).
Proof.
  assert (H1 : no_override (fresh None saturday_noon)) by (left; reflexivity).
  assert (H2 : astimezone (instant_of (fresh None saturday_noon) None)
                 mountain_standard_time
               = Ok saturday_noon_local) by (vm_compute; reflexivity).
  assert (H3 : known_dataset "ST100") by (right; reflexivity).
  assert (H4 : 4 < weekday (dt_date saturday_noon_local))
    by (vm_compute; reflexivity).
  split; [exact H1|]. split; [exact H2|]. split; [exact H3|].
  split; [exact H4|].
  exact (resolve_report_date_weekend mountain_standard_time
           (fresh None saturday_noon) "ST100" None saturday_noon_local
           H1 H2 H3 H4).
Defined.

(** X5 on a Wednesday at 09:59 local time, dataset ST1: the hour is below
    the cutoff and the local date is not returned. *)
Lemma resolve_report_date_today_witness :
  no_override (fresh None wednesday_morning)
  /\ astimezone wednesday_morning mountain_standard_time
     = Ok wednesday_morning_local
  /\ known_dataset "ST1"
  /\ (resolve_report_date mountain_standard_time
        (fresh None wednesday_morning) "ST1" None
      = Ok (mkdate 2024 3 13)
      <-> is_business_day (mkdate 2024 3 13) /\ cutoff_hour "ST1" <= 9).
Proof.
  assert (H1 : no_override (fresh None wednesday_morning))
    by (left; reflexivity).
  assert (H2 : astimezone (instant_of (fresh None wednesday_morning) None)
                 mountain_standard_time
               = Ok wednesday_morning_local) by (vm_compute; reflexivity).
  assert (H3 : known_dataset "ST1") by (left; reflexivity).
  split; [exact H1|]. split; [exact H2|]. split; [exact H3|].
  exact (resolve_report_date_today mountain_standard_time
           (fresh None wednesday_morning) "ST1" None wednesday_morning_local
           H1 H2 H3).
Defined.

(** X6: 15 March of 2023 and of 2024 have one URL. *)
Lemma build_url_same_witness :
  valid_date (mkdate 2024 3 15) /\ valid_date (mkdate 2023 3 15)
  /\ build_url "ST1" (mkdate 2024 3 15)
     = Ok "https://static.aer.ca/data/well-lic/WELLS0315.txt"
  /\ build_url "ST1" (mkdate 2023 3 15)
     = Ok "https://static.aer.ca/data/well-lic/WELLS0315.txt".
Proof.
  assert (H1 : valid_date (mkdate 2024 3 15)) by (vm_compute; reflexivity).
  assert (H2 : valid_date (mkdate 2023 3 15)) by (vm_compute; reflexivity).
  assert (H3 : build_url "ST1" (mkdate 2024 3 15)
               = Ok "https://static.aer.ca/data/well-lic/WELLS0315.txt")
    by (vm_compute; reflexivity).
  split; [exact H1|]. split; [exact H2|]. split; [exact H3|].
  apply (proj2 (build_url_same "ST1" "ST1" (mkdate 2024 3 15)
                  (mkdate 2023 3 15) _ H1 H2 H3)).
  repeat split.
Defined.

(** X7: the tags ST1 and st1 get one key on 15 March 2024. *)
Lemma s3_key_same_witness :
  valid_date (mkdate 2024 3 15)
  /\ s3_key (mkdate 2024 3 15) "ST1" "txt"
     = s3_key (mkdate 2024 3 15) "st1" "txt".
Proof.
  assert (H1 : valid_date (mkdate 2024 3 15)) by (vm_compute; reflexivity).
  split; [exact H1|].
  apply (proj2 (s3_key_same (mkdate 2024 3 15) (mkdate 2024 3 15)
                  "ST1" "st1" "txt" "txt" H1 H1)).
  vm_compute. reflexivity.
Defined.

(** X8 on a run that goes through all six stages. *)
Lemma handler_call_order_witness :
  exists made,
    snd (run (Response (Some 200) []) [("dataset", "ST1")]
           (fresh None wednesday_morning))
    = after (fresh None wednesday_morning) made
    /\ prefix_of (map stage_of made) pipeline_stages.
Proof.
  apply (handler_call_order mountain_standard_time "raw-bucket" "topic"
           "model" sha256_stub decode_stub dumps_stub
           (services_replying (Response (Some 200) []))
           [("dataset", "ST1")] (fresh None wednesday_morning) _
           (fst (run (Response (Some 200) []) [("dataset", "ST1")]
                   (fresh None wednesday_morning)))).
  vm_compute. reflexivity.
Defined.

(** X9 on an event without a dataset and on the tag ST2. *)
Lemma handler_rejects_dataset_witness :
  run (Response (Some 200) []) [] (fresh None wednesday_morning)
  = (Err (KeyError "dataset"), fresh None wednesday_morning)
  /\ exists e,
       run (Response (Some 200) []) [("dataset", "ST2")]
         (fresh None wednesday_morning)
       = (Err e, fresh None wednesday_morning).
Proof.
  split.
  - apply (proj1 (handler_rejects_dataset mountain_standard_time "raw-bucket"
                    "topic" "model" sha256_stub decode_stub dumps_stub
                    (services_replying (Response (Some 200) []))
                    [] (fresh None wednesday_morning))).
    reflexivity.
  - apply (proj2 (handler_rejects_dataset mountain_standard_time "raw-bucket"
                    "topic" "model" sha256_stub decode_stub dumps_stub
                    (services_replying (Response (Some 200) []))
                    [("dataset", "ST2")] (fresh None wednesday_morning))
             "ST2").
    + reflexivity.
    + intros [H | H]; discriminate H.
Defined.

(** X10 with a fetch that raises [HTTPError] 503. *)
Lemma handler_fetch_failure_witness :
  run (HTTPError 503) [("dataset", "ST1")] (fresh None wednesday_morning)
  = (Err (RuntimeError
            "Failed to download https://static.aer.ca/data/well-lic/WELLS0312.txt: status=503"),
     after (fresh None wednesday_morning)
       [HttpGet "https://static.aer.ca/data/well-lic/WELLS0312.txt"]).
Proof.
  apply (proj2 (handler_fetch_failure mountain_standard_time "raw-bucket"
                  "topic" "model" sha256_stub decode_stub dumps_stub
                  (services_replying (HTTPError 503))
                  [("dataset", "ST1")] (fresh None wednesday_morning)
                  "ST1" "https://static.aer.ca/data/well-lic/WELLS0312.txt"
                  (mkdate 2024 3 12) eq_refl eq_refl eq_refl)
           (Some 503) None).
  - reflexivity.
  - reflexivity.
  - reflexivity.
Defined.

(** X12 with a fetch that cannot reach the publisher. *)
Lemma handler_fail_fast_witness :
  failure (services_replying (Raises (URLError "timed out")))
    (calls (fresh None wednesday_morning) ++ [])
    (HttpGet "https://static.aer.ca/data/well-lic/WELLS0312.txt")
  = Some (URLError "timed out")
  /\ fst (run (Raises (URLError "timed out")) [("dataset", "ST1")]
            (fresh None wednesday_morning))
     = Err (URLError "timed out").
Proof.
  assert (H1 : run (Raises (URLError "timed out")) [("dataset", "ST1")]
                 (fresh None wednesday_morning)
               = (fst (run (Raises (URLError "timed out"))
                         [("dataset", "ST1")]
                         (fresh None wednesday_morning)),
                  snd (run (Raises (URLError "timed out"))
                         [("dataset", "ST1")]
                         (fresh None wednesday_morning))))
    by (vm_compute; reflexivity).
  assert (H2 : calls (snd (run (Raises (URLError "timed out"))
                             [("dataset", "ST1")]
                             (fresh None wednesday_morning)))
               = calls (fresh None wednesday_morning) ++ []
                 ++ HttpGet "https://static.aer.ca/data/well-lic/WELLS0312.txt"
                    :: [])
    by (vm_compute; reflexivity).
  assert (H3 : failure (services_replying (Raises (URLError "timed out")))
                 (calls (fresh None wednesday_morning) ++ [])
                 (HttpGet "https://static.aer.ca/data/well-lic/WELLS0312.txt")
               = Some (URLError "timed out"))
    by (vm_compute; reflexivity).
  split; [exact H3|].
  exact (proj1 (handler_fail_fast mountain_standard_time "raw-bucket"
                  "topic" "model" sha256_stub decode_stub dumps_stub
                  (services_replying (Raises (URLError "timed out")))
                  [("dataset", "ST1")] (fresh None wednesday_morning)
                  _ _ [] [] _ _ H1 H2 H3)).
Defined.

(** X15: a stored copy with the same checksum changes nothing. *)
Lemma handler_check_decides_nothing_witness :
  handler mountain_standard_time "raw-bucket" "topic" "model" sha256_stub
    decode_stub dumps_stub
    (with_head_object (services_replying (Response (Some 200) []))
       (fun _ _ => Ok [("sha256", "00")]))
    [("dataset", "ST1")] (fresh None wednesday_morning)
  = run (Response (Some 200) []) [("dataset", "ST1")]
      (fresh None wednesday_morning).
Proof.
  apply (handler_check_decides_nothing mountain_standard_time "raw-bucket"
           "topic" "model" sha256_stub decode_stub dumps_stub
           (services_replying (Response (Some 200) []))
           (fun _ _ => Ok [("sha256", "00")])).
  - intros history c. reflexivity.
  - intros history c. reflexivity.
Defined.

(** X13 on a run that ends with status emailed_and_deleted. *)
Lemma handler_result_witness :
  exists dataset day url status content,
    dict_get [("dataset", "ST1")] "dataset" = Some dataset
    /\ resolve_report_date mountain_standard_time
         (fresh None wednesday_morning) dataset None
       = Ok day
    /\ build_url dataset day = Ok url
    /\ fst (http_get (services_replying (Response (Some 200) [])) url
              (fresh None wednesday_morning))
       = Ok (status, content)
    /\ ((status = Some 404
         /\ fst (run (Response (Some 200) []) [("dataset", "ST1")]
                   (fresh None wednesday_morning))
            = Ok [("dataset", dataset); ("date", strftime day "%Y-%m-%d");
                  ("status", "not_ready"); ("url", url)]
         /\ snd (run (Response (Some 200) []) [("dataset", "ST1")]
                   (fresh None wednesday_morning))
            = after (fresh None wednesday_morning) [HttpGet url])
        \/ (exists code data made,
              status = Some code /\ code < 400 /\ code <> 404
              /\ content = Some data
              /\ fst (run (Response (Some 200) []) [("dataset", "ST1")]
                        (fresh None wednesday_morning))
                 = Ok [("dataset", dataset);
                       ("date", strftime day "%Y-%m-%d");
                       ("status", "emailed_and_deleted"); ("url", url)]
              /\ snd (run (Response (Some 200) []) [("dataset", "ST1")]
                        (fresh None wednesday_morning))
                 = after (fresh None wednesday_morning) made
              /\ List.length made = 6%nat)).
Proof.
  assert (H : run (Response (Some 200) []) [("dataset", "ST1")]
                (fresh None wednesday_morning)
              = (Ok [("dataset", "ST1"); ("date", "2024-03-12");
                     ("status", "emailed_and_deleted");
                     ("url",
                      "https://static.aer.ca/data/well-lic/WELLS0312.txt")],
                 snd (run (Response (Some 200) []) [("dataset", "ST1")]
                        (fresh None wednesday_morning))))
    by (vm_compute; reflexivity).
  destruct (handler_result mountain_standard_time "raw-bucket" "topic"
              "model" sha256_stub decode_stub dumps_stub
              (services_replying (Response (Some 200) []))
              [("dataset", "ST1")] _ (fresh None wednesday_morning) _ H)
    as (dataset & day & url & status & content & H1 & H2 & H3 & H4 & H5).
  exists dataset, day, url, status, content.
  split; [exact H1|]. split; [exact H2|]. split; [exact H3|].
  split; [exact H4|].
  destruct H5 as [(E1 & E2 & E3) | (code & data & made & E1 & E2 & E3 & E4
                                     & E5 & E6 & E7)].
  - left. split; [exact E1|]. split; [|exact E3].
    rewrite H. cbn [fst]. now rewrite E2.
  - right. exists code, data, made.
    split; [exact E1|]. split; [exact E2|]. split; [exact E3|].
    split; [exact E4|]. split; [|split; [exact E6 | exact E7]].
    rewrite H. cbn [fst]. now rewrite E5.
Defined.

(** X17 on the override 2024-3-5, written without leading zeros. *)
Lemma resolve_report_date_override_texts_witness :
  getenv_REPORT_DATE (fresh (Some "2024-3-5") saturday_noon) = Some "2024-3-5"
  /\ "2024-3-5" <> ""
  /\ ascii_only "2024-3-5" = true
  /\ resolve_report_date mountain_standard_time
       (fresh (Some "2024-3-5") saturday_noon) "ST1" None
     = Ok (mkdate 2024 3 5).
Proof.
  assert (H1 : getenv_REPORT_DATE (fresh (Some "2024-3-5") saturday_noon)
               = Some "2024-3-5") by reflexivity.
  assert (H2 : "2024-3-5" <> "") by discriminate.
  assert (H3 : ascii_only "2024-3-5" = true) by reflexivity.
  split; [exact H1|]. split; [exact H2|]. split; [exact H3|].
  apply (proj2 (resolve_report_date_override_texts mountain_standard_time
                  (fresh (Some "2024-3-5") saturday_noon) "ST1" None
                  "2024-3-5" (mkdate 2024 3 5) H1 H2 H3)).
  split.
  - vm_compute. reflexivity.
  - apply In_decide. vm_compute. reflexivity.
Defined.

(** X14 on a run that ends with status emailed_and_deleted. *)
Lemma handler_delivery_witness :
  exists dataset day url status data request notice,
    dict_get [("dataset", "ST1")] "dataset" = Some dataset
    /\ resolve_report_date mountain_standard_time
         (fresh None wednesday_morning) dataset None
       = Ok day
    /\ build_url dataset day = Ok url
    /\ urlopen (services_replying (Response (Some 200) []))
         (calls (fresh None wednesday_morning)) url
       = Response status data
    /\ stage_of request = Summarise /\ stage_of notice = Notify
    /\ snd (run (Response (Some 200) []) [("dataset", "ST1")]
              (fresh None wednesday_morning))
       = after (fresh None wednesday_morning)
           [HttpGet url;
            S3HeadObject "raw-bucket" (s3_key day dataset "txt");
            S3PutObject "raw-bucket" (s3_key day dataset "txt") data
              "text/plain"
              [("source_url", url); ("sha256", sha256_stub data);
               ("dataset", dataset)];
            request; notice;
            S3DeleteObject "raw-bucket" (s3_key day dataset "txt")].
Proof.
  apply (handler_delivery mountain_standard_time "raw-bucket" "topic"
           "model" sha256_stub decode_stub dumps_stub
           (services_replying (Response (Some 200) []))
           [("dataset", "ST1")]
           [("dataset", "ST1"); ("date", "2024-03-12");
            ("status", "emailed_and_deleted");
            ("url", "https://static.aer.ca/data/well-lic/WELLS0312.txt")]
           (fresh None wednesday_morning)).
  - vm_compute. reflexivity.
  - reflexivity.
Defined.

(** X11 with a fetch that raises [HTTPError] 304. *)
Lemma handler_http_error_below_400_witness :
  urlopen (services_replying (HTTPError 304))
    (calls (fresh None wednesday_morning))
    "https://static.aer.ca/data/well-lic/WELLS0312.txt"
  = HTTPError 304
  /\ 304 < 400
  /\ exists msg,
       run (HTTPError 304) [("dataset", "ST1")] (fresh None wednesday_morning)
       = (Err (TypeError msg),
          after (fresh None wednesday_morning)
            [HttpGet "https://static.aer.ca/data/well-lic/WELLS0312.txt"]).
Proof.
  assert (H1 : urlopen (services_replying (HTTPError 304))
                 (calls (fresh None wednesday_morning))
                 "https://static.aer.ca/data/well-lic/WELLS0312.txt"
               = HTTPError 304) by reflexivity.
  assert (H2 : 304 < 400) by lia.
  split; [exact H1|]. split; [exact H2|].
  apply (handler_http_error_below_400 mountain_standard_time "raw-bucket"
           "topic" "model" sha256_stub decode_stub dumps_stub
           (services_replying (HTTPError 304))
           [("dataset", "ST1")] (fresh None wednesday_morning)
           "ST1" "https://static.aer.ca/data/well-lic/WELLS0312.txt"
           (mkdate 2024 3 12) 304).
  - reflexivity.
  - vm_compute. reflexivity.
  - vm_compute. reflexivity.
  - exact H1.
  - exact H2.
Defined.

End MoreInstances.
